(** * GCP Data Catalog search proxy: query translation, pagination and
      entry normalisation

    A shallow embedding of [search_service/proxy/gcp_data_catalog.py]
    (class [GCPDataCatalogProxy]) together with the properties its
    specification states about it.

    Python values are modelled as follows.
    - [str] is [string]; the handful of [str] methods the proxy uses
      ([split], [strip], [replace]) are defined in [Module PyStr].
    - [int] is [Z].
    - an insertion-ordered [dict] that is iterated ([filters]) is an
      association list with unique keys, updated by [dict_set]; a [dict] that
      is only looked up ([search_request], [separators], the tag metadata)
      is a [gmap].
    - a raised exception is the [Err] branch of [result]; a local variable
      that may be unbound when it is read is an [option]. *)

From Stdlib Require Import ZArith String Ascii List Lia.
From stdpp Require Import base option list strings gmap.

Open Scope Z_scope.

(** ** Python string methods *)

Module PyStr.

(** [c in chars] for a character [c]. *)
Fixpoint mem (c : ascii) (chars : string) : bool :=
  match chars with
  | EmptyString => false
  | String d chars' => if Ascii.eqb c d then true else mem c chars'
  end.

(** The first field of [s.split(sep)] and the list of the remaining
    ones. *)
Fixpoint split_fields (sep : ascii) (s : string) : string * list string :=
  match s with
  | EmptyString => (EmptyString, [])
  | String c s' =>
      let (field, fields) := split_fields sep s' in
      if Ascii.eqb c sep then (EmptyString, field :: fields)
      else (String c field, fields)
  end.

(** [s.split(sep)] for a one-character separator: never empty. *)
Definition split (sep : ascii) (s : string) : list string :=
  let (field, fields) := split_fields sep s in field :: fields.

(** [s.lstrip(chars)]. *)
Fixpoint lstrip (chars : string) (s : string) : string :=
  match s with
  | EmptyString => EmptyString
  | String c s' => if mem c chars then lstrip chars s' else s
  end.

(** [s.rstrip(chars)]. *)
Fixpoint rstrip (chars : string) (s : string) : string :=
  match s with
  | EmptyString => EmptyString
  | String c s' =>
      match rstrip chars s' with
      | EmptyString => if mem c chars then EmptyString else String c EmptyString
      | r => String c r
      end
  end.

(** [s.strip(chars)]: [chars] is a set of characters, each of which is
    removed from both ends. *)
Definition strip (chars : string) (s : string) : string :=
  rstrip chars (lstrip chars s).

(** [s.replace(old, new)] for a non-empty [old]: [skip] counts the
    characters of a matched occurrence still to be dropped. *)
Fixpoint replace_from (old new : string) (skip : nat) (s : string) : string :=
  match s with
  | EmptyString => EmptyString
  | String c s' =>
      match skip with
      | S k => replace_from old new k s'
      | O =>
          if String.prefix old s
          then new +:+ replace_from old new (Nat.pred (String.length old)) s'
          else String c (replace_from old new O s')
      end
  end.

(** [new.join(s)] over the characters of [s], preceded by [new]: what
    [s.replace('', new)] gives after its leading [new]. *)
Fixpoint intersperse (new : string) (s : string) : string :=
  match s with
  | EmptyString => EmptyString
  | String c s' => String c (new +:+ intersperse new s')
  end.

(** [s.replace(old, new)]. *)
Definition replace (old new : string) (s : string) : string :=
  match old with
  | EmptyString => new +:+ intersperse new s
  | _ => replace_from old new O s
  end.

(** [parts[i]] for a Python index, negative ones counting from the end;
    [None] stands for [IndexError]. *)
Definition index {A} (parts : list A) (i : Z) : option A :=
  let n := Z.of_nat (length parts) in
  if (0 <=? i) && (i <? n) then parts !! Z.to_nat i
  else if (- n <=? i) && (i <? 0) then parts !! Z.to_nat (n + i)
  else None.

End PyStr.

(** ** Exceptions and fallible computations *)

Inductive exn : Type :=
  | IndexError
  | KeyError (k : string)
  | UnboundLocalError (variable : string)
  | NotImplementedError (message : string)
  | GoogleAPICallError (message : string).

Inductive result (A : Type) : Type :=
  | Ok (a : A)
  | Err (e : exn).
Arguments Ok {A} a.
Arguments Err {A} e.

#[global] Instance result_ret : MRet result := fun A a => Ok a.
#[global] Instance result_bind : MBind result := fun A B f m =>
  match m with
  | Ok a => f a
  | Err e => Err e
  end.

(** [parts[i]], raising [IndexError] out of range. *)
Definition getitem {A} (parts : list A) (i : Z) : result A :=
  match PyStr.index parts i with
  | Some a => Ok a
  | None => Err IndexError
  end.

(** Reading a local variable that some paths leave unassigned. *)
Definition read_local {A} (variable : string) (v : option A) : result A :=
  match v with
  | Some a => Ok a
  | None => Err (UnboundLocalError variable)
  end.

(** ** Data model *)

(** The value of [user_specified_system] (a string) or of
    [integrated_system] (an enum, an [int]). *)
Inductive system : Type :=
  | SystemInt (n : Z)
  | SystemStr (s : string).

Definition system_truthy (v : system) : bool :=
  match v with
  | SystemInt n => negb (n =? 0)
  | SystemStr s => negb (String.eqb s "")
  end.

(** Python's [a or b]. *)
Definition system_or (a b : system) : system :=
  if system_truthy a then a else b.

(** One element of a page of [search_catalog]. *)
Record SearchCatalogResult : Type := {
  linked_resource : string;
  relative_resource_name : string;
  user_specified_system : system;
  integrated_system : system
}.

Module Table.
Record Table : Type := {
  database : string;
  cluster : string;
  schema : string;
  name : string;
  tags : list string;
  badges : list string;
  last_updated_timestamp : option Z;
  column_names : list string;
  key : string
}.
End Table.

Module Dashboard.
Record Dashboard : Type := {
  cluster : string;
  group_name : option string;
  group_url : string;
  url : string;
  product : system;
  name : string;
  last_successful_run_timestamp : Z;
  uri : string
}.
End Dashboard.

Inductive NormalizedResult : Type :=
  | TableResult (t : Table.Table)
  | DashboardResult (d : Dashboard.Dashboard).

(** The three result containers of [search_service.models]. *)
Inductive SearchResult : Type :=
  | SearchTableResult (total_results : Z) (results : list NormalizedResult)
  | SearchDashboardResult (total_results : Z) (results : list NormalizedResult)
  | SearchUserResult (total_results : Z) (results : list NormalizedResult).

(** A full entry as [get_entry] returns it; only its [name] is read. *)
Module Entry.
Record Entry : Type := { name : string }.
End Entry.

(** A tag with the [string_value] of each of its fields. *)
Record Tag : Type := {
  template_display_name : string;
  fields : list (string * string)
}.

(** The remote Data Catalog client: every call may raise. *)
Record DataCatalogClient : Type := {
  search_catalog :
    string -> list string -> Z -> result (list (list SearchCatalogResult));
  get_entry : string -> result Entry.Entry;
  list_tags : string -> result (list Tag)
}.

(** [self]: the scope holds [include_project_ids]. *)
Record GCPDataCatalogProxy : Type := {
  scope : list string;
  client : DataCatalogClient;
  page_size : Z
}.

(** A filter value: [None], a [str] or a [list] of [str]. *)
Inductive value : Type :=
  | VNone
  | VStr (s : string)
  | VList (l : list string).

(** [if values:]. *)
Definition value_truthy (v : value) : bool :=
  match v with
  | VNone => false
  | VStr s => negb (String.eqb s "")
  | VList l => match l with [] => false | _ => true end
  end.

(** [d[k] = v] on an insertion-ordered dict: an existing key keeps its
    place, a new one goes last. *)
Fixpoint dict_set {V} (k : string) (v : V) (d : list (string * V))
  : list (string * V) :=
  match d with
  | [] => [(k, v)]
  | (k', v') :: d' =>
      if String.eqb k' k then (k, v) :: d' else (k', v') :: dict_set k v d'
  end.

(** ** Table normalisation *)

Definition _process_table_resource (entry : SearchCatalogResult)
  : result Table.Table :=
  let linked_resource_parts := PyStr.split "/" (linked_resource entry) in
  let relative_resource_name_parts :=
    PyStr.split "/" (relative_resource_name entry) in
  name ← getitem linked_resource_parts (-1);
  let _database :=
    system_or (user_specified_system entry) (integrated_system entry) in
  '(database, schema) ←
    match _database with
    | SystemInt n =>
        let database := if n =? 1 then Some "bigquery"%string else None in
        schema ← getitem linked_resource_parts (-3);
        Ok (database, schema)
    | SystemStr s =>
        last ← getitem relative_resource_name_parts (-1);
        Ok (Some s, PyStr.strip "_" (PyStr.replace name "" last))
    end;
  part1 ← getitem relative_resource_name_parts 1;
  part3 ← getitem relative_resource_name_parts 3;
  let cluster := part1 +:+ "__" +:+ part3 in
  let tags := [] in
  let badges := tags in
  database ← read_local "database" database;
  Ok {| Table.database := database;
        Table.cluster := cluster;
        Table.schema := schema;
        Table.name := name;
        Table.tags := tags;
        Table.badges := badges;
        Table.last_updated_timestamp := None;
        Table.column_names := [];
        Table.key := relative_resource_name entry |}.

(** ** Query building *)

(** [separators] of [_basic_search]: the fields that only support exact
    matching. *)
Definition separators : gmap string string :=
  {[ "type" := "="; "system" := "=" ]}%string.

(** The label filter, lines 150-158: the raw value split on [':'] gives
    the label's name and value; [None] is the path that leaves the loop. *)
Definition parse_label (raw : string) : option (string * string) :=
  match PyStr.split ":" raw with
  | [label_value] => Some ("*"%string, label_value)
  | [label_name; label_value] => Some (label_name, label_value)
  | _ => None
  end.

(** [_query] after the loop over a list-valued filter. *)
Fixpoint disjunction (field separator : string) (values : list string)
  (_query : string) : string :=
  match values with
  | [] => _query
  | value :: values' =>
      disjunction field separator values'
        (_query +:+ field +:+ separator +:+ value +:+ " OR ")
  end.

(** The loop over [filters.items()]; the [break] of the label branch drops
    the remaining items. *)
Fixpoint query_loop (query : string) (items : list (string * value)) : string :=
  match items with
  | [] => query
  | (field, values) :: items' =>
      let separator := default ":"%string (separators !! field) in
      if String.eqb field "label" then
        match values with
        | VStr raw =>
            match parse_label raw with
            | Some (label_name, label_value) =>
                query_loop
                  (query +:+ " AND " +:+ field +:+ "." +:+ label_name
                         +:+ separator +:+ label_value)
                  items'
            | None => query
            end
        | _ => query_loop query items'
        end
      else
        match values with
        | VStr s =>
            query_loop (query +:+ " AND " +:+ field +:+ separator +:+ s) items'
        | VList l =>
            let _query := disjunction field separator l "" in
            if negb (String.eqb _query "")
            then query_loop
                   (query +:+ " AND (" +:+ PyStr.strip " OR " _query +:+ ")")
                   items'
            else query_loop query items'
        | VNone => query_loop query items'
        end
  end.

Definition entry_type_value (entry_type : option string) : value :=
  match entry_type with
  | Some t => VStr t
  | None => VNone
  end.

(** The query of [_basic_search], lines 135-170. *)
Definition build_query (query_term : string) (entry_type : option string)
  (additional_filters : list (string * value)) : string :=
  let filters := dict_set "type" (entry_type_value entry_type) additional_filters in
  query_loop query_term filters.

(** ** Pagination *)

Section Pagination.
Context {E R : Type}.
Variable process : E -> result R.
Variable page_size : Z.
Variable page_index : Z.

(** The loop over the elements of one page. *)
Fixpoint page_loop (page_index_position current_page_count : Z)
  (entries : list R) (page : list E) : result (Z * list R) :=
  match page with
  | [] => Ok (current_page_count, entries)
  | element :: page' =>
      let current_page_count := current_page_count + 1 in
      if page_index_position =? page_index then
        r ← process element;
        page_loop page_index_position current_page_count (entries ++ [r]) page'
      else
        page_loop page_index_position current_page_count entries page'
  end.

(** The loop over the pages: [current_page_count] is unbound until a
    page has been visited. *)
Fixpoint pages_loop (total_count page_index_position : Z)
  (current_page_count : option Z) (entries : list R)
  (results : list (list E)) : result (Z * option Z * list R) :=
  match results with
  | [] => Ok (total_count, current_page_count, entries)
  | page :: results' =>
      let total_count := total_count + page_size in
      '(count, entries) ← page_loop page_index_position 0 entries page;
      pages_loop total_count (page_index_position + 1) (Some count) entries
        results'
  end.

(** Lines 174-194 of [_basic_search]. *)
Definition paginate (results : list (list E)) : result (Z * list R) :=
  '(total_count, current_page_count, entries) ←
    pages_loop 0 0 None [] results;
  current_page_count ← read_local "current_page_count" current_page_count;
  let total_count := total_count - (page_size - current_page_count) in
  Ok (total_count, entries).

End Pagination.

(** ** Filter translation of [fetch_search_results_with_filter] *)

(** [(search_field_name, gcp_field_name, defaults)]. *)
Definition filter_specs : list (string * string * value) :=
  [ ("table", "name", VNone);
    ("description", "description", VNone);
    ("column", "column", VNone);
    ("tag", "tag", VNone);
    ("database", "system", VNone);
    ("badge", "label", VNone) ]%string.

(** Lines 233-238: the backend filters of a request's filters. *)
Definition translate_filters (_filters : gmap string value)
  : list (string * value) :=
  foldl
    (fun filters '(search_field_name, gcp_field_name, defaults) =>
       let values := default defaults (_filters !! search_field_name) in
       if value_truthy values then dict_set gcp_field_name values filters
       else filters)
    [] filter_specs.

(** ** The proxy *)

Section Proxy.

(** [re_match regex s]: whether [re.compile(regex).match(s)] finds a
    match. *)
Variable re_match : string -> string -> bool.
Variable self : GCPDataCatalogProxy.

Definition _get_resource_metadata (resource_link : string)
  (display_name_regex : string) : result (gmap string string) :=
  tags ← list_tags (client self) resource_link;
  Ok (foldl
        (fun result tag =>
           if re_match display_name_regex (template_display_name tag)
           then foldl (fun result '(k, v) => <[k := v]> result) result
                  (fields tag)
           else result)
        ∅ tags).

Definition dict_getitem (d : gmap string string) (k : string) : result string :=
  match d !! k with
  | Some v => Ok v
  | None => Err (KeyError k)
  end.

Definition _process_dashboard_resource (entry : SearchCatalogResult)
  : result Dashboard.Dashboard :=
  full_entry ← get_entry (client self) (relative_resource_name entry);
  dashboard_metadata ←
    _get_resource_metadata (Entry.name full_entry) ".*Dashboard Metadata$";
  let relative_resource_name_parts := PyStr.split "/" (Entry.name full_entry) in
  cluster ← getitem relative_resource_name_parts 1;
  let group_name := dashboard_metadata !! "site_name"%string in
  let product :=
    system_or (user_specified_system entry) (integrated_system entry) in
  name ← dict_getitem dashboard_metadata "workbook_name";
  uri ← dict_getitem dashboard_metadata "workbook_entry";
  Ok {| Dashboard.cluster := cluster;
        Dashboard.group_name := group_name;
        Dashboard.group_url := "";
        Dashboard.url := "";
        Dashboard.product := product;
        Dashboard.name := name;
        Dashboard.last_successful_run_timestamp := 0;
        Dashboard.uri := uri |}.

Definition _process_resource (entry : SearchCatalogResult)
  (entry_type : option string) : result NormalizedResult :=
  if decide (entry_type = Some "table"%string) then
    table ← _process_table_resource entry; Ok (TableResult table)
  else if decide (entry_type = Some "workbook"%string) then
    dashboard ← _process_dashboard_resource entry;
    Ok (DashboardResult dashboard)
  else
    Err (NotImplementedError
           ("Entry of " +:+ default "None"%string entry_type
                        +:+ " type not implemented !")).

Definition _basic_search (query_term : string) (page_index : Z)
  (entry_type : option string) (additional_filters : list (string * value))
  : result (Z * list NormalizedResult) :=
  let query := build_query query_term entry_type additional_filters in
  results ← search_catalog (client self) query (scope self) (page_size self);
  paginate (fun element => _process_resource element entry_type)
    (page_size self) page_index results.

Definition fetch_table_search_results (query_term : string)
  (page_index : Z) (index : string) : result SearchResult :=
  '(total_results, results) ←
    _basic_search query_term page_index (Some "table"%string) [];
  Ok (SearchTableResult total_results results).

Definition fetch_user_search_results (query_term : string)
  (page_index : Z) (index : string) : result SearchResult :=
  '(total_results, results) ←
    _basic_search query_term page_index (Some "user"%string) [];
  Ok (SearchTableResult total_results results).

Definition fetch_search_results_with_filter (query_term : string)
  (search_request : gmap string (gmap string value)) (page_index : Z)
  (index : string) : result SearchResult :=
  let _filters := default ∅ (search_request !! "filters"%string) in
  entry_type ← getitem (PyStr.split "_" index) 0;
  let filters := translate_filters _filters in
  '(approx_count, tables) ←
    _basic_search query_term page_index (Some entry_type) filters;
  Ok (SearchTableResult approx_count tables).

Definition fetch_dashboard_search_results (query_term : string)
  (page_index : Z) (index : string) : result SearchResult :=
  '(total_results, results) ←
    _basic_search query_term page_index (Some "workbook"%string) [];
  Ok (SearchDashboardResult total_results results).

End Proxy.

(** ** Construction of the proxy *)

Section Construction.

(** The two constructors of the client library, each given the credentials
    and the client options (the list of scopes); both may raise. *)
Variable from_service_account_file :
  string -> list (list string) -> result DataCatalogClient.
Variable DataCatalogClient_new :
  option string -> list (list string) -> result DataCatalogClient.

(** [if credentials_file:] for an optional string. *)
Definition credentials_truthy (credentials_file : option string) : bool :=
  match credentials_file with
  | Some file => negb (String.eqb file "")
  | None => false
  end.

(** [GCPDataCatalogProxy.__init__]: the library client is built even when a
    client is injected. *)
Definition __init__ (project_id : string) (credentials_file : option string)
  (injected : option DataCatalogClient) (page_size : Z)
  : result GCPDataCatalogProxy :=
  let scope := [] ++ [project_id] in
  let client_options := [scope] in
  _client ←
    (if credentials_truthy credentials_file
     then from_service_account_file (default ""%string credentials_file)
            client_options
     else DataCatalogClient_new credentials_file client_options);
  Ok {| scope := scope;
        client := default _client injected;
        page_size := page_size |}.

End Construction.

(** ** The singleton proxy client of [search_service/proxy/__init__.py] *)

(** A value of the application's configuration. *)
Inductive config_value : Type :=
  | ConfigNone
  | ConfigStr (s : string)
  | ConfigInt (n : Z)
  | ConfigClient (c : DataCatalogClient).

(** The keyword arguments the proxy class is called with. *)
Module Kwargs.
Record Kwargs : Type := {
  host : config_value;
  user : config_value;
  password : config_value;
  client : config_value;
  page_size : config_value;
  project_id : config_value;
  credentials_file : config_value
}.
End Kwargs.

(** The names of the configuration keys, constants of
    [search_service.config]. *)
Record ConfigKeys : Type := {
  PROXY_CLIENT_KEY : string;
  PROXY_ENDPOINT : string;
  PROXY_USER : string;
  PROXY_PASSWORD : string;
  PROXY_PROJECT_ID : string;
  PROXY_CREDENTIALS_FILE : string;
  PROXY_CLIENT : string;
  SEARCH_PAGE_SIZE_KEY : string
}.

Definition DEFAULT_PAGE_SIZE : Z := 10.

Section Singleton.

(** An instance of a subclass of [BaseProxy]; as an object without
    [__bool__] or [__len__], it is truthy. *)
Context {Proxy : Type}.
Variable config : ConfigKeys.
(** [werkzeug.utils.import_string]: the class a configured name denotes,
    as the function from its keyword arguments to the instance. *)
Variable import_string :
  config_value -> result (Kwargs.Kwargs -> result Proxy).
(** [current_app.config]. *)
Variable app_config : gmap string config_value.

(** [current_app.config[key]]. *)
Definition config_getitem (key : string) : result config_value :=
  match app_config !! key with
  | Some v => Ok v
  | None => Err (KeyError key)
  end.

(** The body of the [else] branch: the client built from the
    configuration. *)
Definition build_proxy_client : result Proxy :=
  obj ← config_getitem (PROXY_CLIENT_KEY config);
  host ← config_getitem (PROXY_ENDPOINT config);
  user ← config_getitem (PROXY_USER config);
  password ← config_getitem (PROXY_PASSWORD config);
  project_id ← config_getitem (PROXY_PROJECT_ID config);
  credentials_file ← config_getitem (PROXY_CREDENTIALS_FILE config);
  name ← config_getitem (PROXY_CLIENT config);
  client ← import_string name;
  let page_size :=
    default (ConfigInt DEFAULT_PAGE_SIZE)
      (app_config !! SEARCH_PAGE_SIZE_KEY config) in
  client {| Kwargs.host := host;
            Kwargs.user := user;
            Kwargs.password := password;
            Kwargs.client := obj;
            Kwargs.page_size := page_size;
            Kwargs.project_id := project_id;
            Kwargs.credentials_file := credentials_file |}.

(** [get_proxy_client] on the global [_proxy_client]: the value returned
    or the exception raised, and the global afterwards. The lock is held by
    the only caller. *)
Definition get_proxy_client (_proxy_client : option Proxy)
  : result Proxy * option Proxy :=
  match _proxy_client with
  | Some proxy => (Ok proxy, _proxy_client)
  | None =>
      match _proxy_client with
      | Some proxy => (Ok proxy, _proxy_client)
      | None =>
          match build_proxy_client with
          | Ok proxy => (Ok proxy, Some proxy)
          | Err e => (Err e, _proxy_client)
          end
      end
  end.

End Singleton.

(** * Vocabulary of the properties and example inputs *)

(** The number of occurrences of [sep] in [s]. *)
Fixpoint count_sep (sep : ascii) (s : string) : nat :=
  match s with
  | EmptyString => O
  | String c s' =>
      if Ascii.eqb c sep then S (count_sep sep s') else count_sep sep s'
  end.

(** The operator of a field, as the specification gives it. *)
Definition operator (field : string) : string :=
  if decide (field = "type" \/ field = "system")%string then "=" else ":".

(** The constraint of one scalar filter. *)
Definition scalar_constraint (item : string * string) : string :=
  " AND " +:+ item.1 +:+ operator item.1 +:+ item.2.

(** A field and its scalar value as an item of [filters]. *)
Definition scalar_item (item : string * string) : string * value :=
  (item.1, VStr item.2).

(** The disjunction the specification asks for: one [field<op>value] per
    element, joined by [" OR "]. *)
Definition joined (field separator : string) (values : list string) : string :=
  String.concat " OR " ((fun value => field +:+ separator +:+ value) <$> values).

(** [s] starts with a character outside [chars]. *)
Definition starts_clean (chars : string) (s : string) : bool :=
  match s with
  | EmptyString => false
  | String c _ => negb (PyStr.mem c chars)
  end.

(** [s] ends with a character outside [chars]. *)
Fixpoint ends_clean (chars : string) (s : string) : bool :=
  match s with
  | EmptyString => false
  | String c EmptyString => negb (PyStr.mem c chars)
  | String _ s' => ends_clean chars s'
  end.

(** The translation table of the facade: request field, backend field. *)
Definition translation_table : list (string * string) :=
  [ ("table", "name"); ("description", "description"); ("column", "column");
    ("tag", "tag"); ("database", "system"); ("badge", "label") ]%string.

(** The translation table without its last row, the badge. *)
Definition translation_head : list (string * string) :=
  [ ("table", "name"); ("description", "description"); ("column", "column");
    ("tag", "tag"); ("database", "system") ]%string.

(** A filter of the request is forwarded when it is present and truthy. *)
Definition forwarded (_filters : gmap string value) (names : string * string)
  : option (string * value) :=
  match _filters !! names.1 with
  | Some values => if value_truthy values then Some (names.2, values) else None
  | None => None
  end.

(** The system a table entry resolves to: user-specified, else
    integrated. *)
Definition resolved_system (entry : SearchCatalogResult) : system :=
  system_or (user_specified_system entry) (integrated_system entry).

(** A BigQuery table as the catalog returns it. *)
Definition bigquery_entry : SearchCatalogResult :=
  {| linked_resource := "a/b/c/mytable";
     relative_resource_name :=
       "projects/p1/locations/US/entryGroups/@bigquery/entries/e1";
     user_specified_system := SystemStr "";
     integrated_system := SystemInt 1 |}.

(** The record [bigquery_entry] is normalised to. *)
Definition bigquery_table : Table.Table :=
  {| Table.database := "bigquery";
     Table.cluster := "p1__US";
     Table.schema := "b";
     Table.name := "mytable";
     Table.tags := [];
     Table.badges := [];
     Table.last_updated_timestamp := None;
     Table.column_names := [];
     Table.key := "projects/p1/locations/US/entryGroups/@bigquery/entries/e1" |}.

(** A table whose integrated system is an enum value other than 1. *)
Definition unspecified_entry : SearchCatalogResult :=
  {| linked_resource := "a/b/c/mytable";
     relative_resource_name :=
       "projects/p1/locations/US/entryGroups/g1/entries/e1";
     user_specified_system := SystemStr "";
     integrated_system := SystemInt 2 |}.

(** What [current_page_count] holds after the pages [results]. *)
Definition last_page_count {E} (current_page_count : option Z)
  (results : list (list E)) : option Z :=
  match last results with
  | Some page => Some (Z.of_nat (length page))
  | None => current_page_count
  end.

(** The sum of the sizes of the pages [results]. *)
Definition sum_sizes {E} (results : list (list E)) : Z :=
  foldr (fun page rest => Z.of_nat (length page) + rest) 0 results.

(** C1, as it is stated: the entries are those of the requested page and
    the total count is within [page_size] of the sum of the sizes of the
    first [summed] pages. The specification sums the pages up to the
    requested one, [summed = page_index + 1]. *)
Definition total_count_within_page_size {E R} (page_size page_index : Z)
  (summed : nat) (results : list (list E)) (outcome : result (Z * list R))
  : Prop :=
  exists total_count entries page,
    outcome = Ok (total_count, entries) /\
    results !! Z.to_nat page_index = Some page /\
    length entries = length page /\
    Z.abs (total_count - sum_sizes (take summed results)) <= page_size.

(** A regular-expression matcher for the examples: no display name matches. *)
Definition no_match : string -> string -> bool := fun _ _ => false.

(** A proxy over a client whose search returns the pages [results]. *)
Definition proxy_returning (results : list (list SearchCatalogResult))
  : GCPDataCatalogProxy :=
  {| scope := ["p1"%string];
     client :=
       {| search_catalog := fun _ _ _ => Ok results;
          get_entry := fun _ => Err (GoogleAPICallError "not found");
          list_tags := fun _ => Ok [] |};
     page_size := 10 |}.

(** A proxy over a client whose search fails with the query it was sent,
    which makes the query observable from the facade. *)
Definition echo_proxy : GCPDataCatalogProxy :=
  {| scope := ["p1"%string];
     client :=
       {| search_catalog := fun query _ _ => Err (GoogleAPICallError query);
          get_entry := fun _ => Err (GoogleAPICallError "not found");
          list_tags := fun _ => Ok [] |};
     page_size := 10 |}.

(** The fields of the tags whose display name matches, in order. *)
Definition matching_fields (re_match : string -> string -> bool)
  (display_name_regex : string) (tags : list Tag) : list (string * string) :=
  tags ≫= (fun tag =>
             if re_match display_name_regex (template_display_name tag)
             then fields tag else []).

(** The value of the last pair of [l] whose key is [k]. *)
Fixpoint last_value (k : string) (l : list (string * string)) : option string :=
  match l with
  | [] => None
  | (k', v) :: l' =>
      match last_value k l' with
      | Some w => Some w
      | None => if String.eqb k' k then Some v else None
      end
  end.

(** A display name matches when it ends with ["Dashboard Metadata"], for
    the examples. *)
Definition ends_with_dashboard_metadata (regex display_name : string) : bool :=
  String.eqb
    (String.substring
       (String.length display_name - String.length "Dashboard Metadata")
       (String.length "Dashboard Metadata") display_name)
    "Dashboard Metadata".

(** A proxy over a client that knows one workbook, tagged twice. *)
Definition workbook_proxy : GCPDataCatalogProxy :=
  {| scope := ["p1"%string];
     client :=
       {| search_catalog := fun _ _ _ => Ok [];
          get_entry :=
            fun name => Ok {| Entry.name := name |};
          list_tags :=
            fun _ =>
              Ok [ {| template_display_name := "Tableau Dashboard Metadata";
                      fields := [("workbook_name", "Draft");
                                 ("site_name", "finance");
                                 ("workbook_entry", "uri://x")]%string |};
                   {| template_display_name := "Owners";
                      fields := [("workbook_name", "Other")]%string |};
                   {| template_display_name := "Extra Dashboard Metadata";
                      fields := [("workbook_name", "Sales")]%string |} ] |};
     page_size := 10 |}.

(** A workbook entry of the catalog. *)
Definition workbook_entry : SearchCatalogResult :=
  {| linked_resource := "//tableau/workbooks/w1";
     relative_resource_name :=
       "projects/p1/locations/US/entryGroups/tableau/entries/w1";
     user_specified_system := SystemStr "tableau";
     integrated_system := SystemInt 0 |}.

(** The catalog of [workbook_proxy], whose search finds [workbook_entry]
    on a single page. *)
Definition workbook_search_proxy : GCPDataCatalogProxy :=
  {| scope := scope workbook_proxy;
     client :=
       {| search_catalog := fun _ _ _ => Ok [[workbook_entry]];
          get_entry := get_entry (client workbook_proxy);
          list_tags := list_tags (client workbook_proxy) |};
     page_size := page_size workbook_proxy |}.

(** The dashboard [workbook_entry] is normalised to. *)
Definition sales_dashboard : Dashboard.Dashboard :=
  {| Dashboard.cluster := "p1";
     Dashboard.group_name := Some "finance"%string;
     Dashboard.group_url := "";
     Dashboard.url := "";
     Dashboard.product := SystemStr "tableau";
     Dashboard.name := "Sales";
     Dashboard.last_successful_run_timestamp := 0;
     Dashboard.uri := "uri://x" |}.

(** The keys [get_proxy_client] reads with [config[key]], in the order it
    reads them. *)
Definition required_keys (config : ConfigKeys) : list string :=
  [ PROXY_CLIENT_KEY config; PROXY_ENDPOINT config; PROXY_USER config;
    PROXY_PASSWORD config; PROXY_PROJECT_ID config;
    PROXY_CREDENTIALS_FILE config; PROXY_CLIENT config ].

(** Key names for the examples. *)
Definition example_keys : ConfigKeys :=
  {| PROXY_CLIENT_KEY := "PROXY_CLIENT_KEY";
     PROXY_ENDPOINT := "PROXY_ENDPOINT";
     PROXY_USER := "PROXY_USER";
     PROXY_PASSWORD := "PROXY_PASSWORD";
     PROXY_PROJECT_ID := "PROXY_PROJECT_ID";
     PROXY_CREDENTIALS_FILE := "PROXY_CREDENTIALS_FILE";
     PROXY_CLIENT := "PROXY_CLIENT";
     SEARCH_PAGE_SIZE_KEY := "SEARCH_PAGE_SIZE" |}.

(** A configuration with every required key and no page size. *)
Definition example_config : gmap string config_value :=
  {[ "PROXY_CLIENT_KEY" := ConfigNone;
     "PROXY_ENDPOINT" := ConfigNone;
     "PROXY_USER" := ConfigStr "";
     "PROXY_PASSWORD" := ConfigStr "";
     "PROXY_PROJECT_ID" := ConfigStr "p1";
     "PROXY_CREDENTIALS_FILE" := ConfigNone;
     "PROXY_CLIENT" :=
       ConfigStr "search_service.proxy.gcp_data_catalog.GCPDataCatalogProxy"
  ]}%string.

(** An import whose class records the keyword arguments it is called
    with. *)
Definition import_recorder (name : config_value)
  : result (Kwargs.Kwargs -> result Kwargs.Kwargs) :=
  Ok (fun kwargs => Ok kwargs).

(** The keyword arguments built from [example_config]. *)
Definition example_kwargs : Kwargs.Kwargs :=
  {| Kwargs.host := ConfigNone;
     Kwargs.user := ConfigStr "";
     Kwargs.password := ConfigStr "";
     Kwargs.client := ConfigNone;
     Kwargs.page_size := ConfigInt 10;
     Kwargs.project_id := ConfigStr "p1";
     Kwargs.credentials_file := ConfigNone |}.

(** A library constructor that finds no credentials. *)
Definition no_credentials {A} (credentials : A)
  (client_options : list (list string)) : result DataCatalogClient :=
  Err (GoogleAPICallError "DefaultCredentialsError").

(** A proxy over a client whose search is unavailable. *)
Definition unavailable_proxy : GCPDataCatalogProxy :=
  {| scope := ["p1"%string];
     client :=
       {| search_catalog :=
            fun _ _ _ => Err (GoogleAPICallError "503 unavailable");
          get_entry := fun _ => Err (GoogleAPICallError "503 unavailable");
          list_tags := fun _ => Err (GoogleAPICallError "503 unavailable") |};
     page_size := 10 |}.

(** * Properties *)

(** ** Strings *)

Example split_label : PyStr.split ":" "a:b:c" = ["a"; "b"; "c"]%string.
Proof. reflexivity. Qed.

Example split_empty : PyStr.split ":" "" = [""]%string.
Proof. reflexivity. Qed.

Example split_trailing : PyStr.split "/" "a//b/" = ["a"; ""; "b"; ""]%string.
Proof. reflexivity. Qed.

Example strip_underscores : PyStr.strip "_" "__sales_eu_" = "sales_eu"%string.
Proof. reflexivity. Qed.

Example strip_character_set : PyStr.strip " OR " "tag:FOO OR " = "tag:F"%string.
Proof. reflexivity. Qed.

Example replace_all : PyStr.replace "ab" "" "xabyabab" = "xy"%string.
Proof. reflexivity. Qed.

Example replace_non_overlapping : PyStr.replace "aa" "b" "aaa" = "ba"%string.
Proof. reflexivity. Qed.

Example replace_empty : PyStr.replace "" "-" "ab" = "-a-b-"%string.
Proof. reflexivity. Qed.

Example index_negative : PyStr.index [1; 2; 3] (-3) = Some 1.
Proof. reflexivity. Qed.

Example index_out_of_range : PyStr.index [1; 2; 3] (-4) = None.
Proof. reflexivity. Qed.

Lemma append_cons (c : ascii) (s1 s2 : string) :
  String c s1 +:+ s2 = String c (s1 +:+ s2).
Proof. reflexivity. Qed.

Lemma append_assoc (s1 s2 s3 : string) :
  (s1 +:+ s2) +:+ s3 = s1 +:+ (s2 +:+ s3).
Proof.
  induction s1 as [|c s1 IH]; [done |].
  by rewrite !append_cons, IH.
Qed.

Lemma append_nil_r (s : string) : s +:+ "" = s.
Proof. induction s as [|c s IH]; [done | by rewrite append_cons, IH]. Qed.

(** ** The [result] monad *)

Lemma bind_Ok {A B} (a : A) (f : A -> result B) : Ok a ≫= f = f a.
Proof. reflexivity. Qed.

Lemma bind_Err {A B} (e : exn) (f : A -> result B) : Err e ≫= f = Err e.
Proof. reflexivity. Qed.


(** ** Splitting *)

Lemma split_cons (sep c : ascii) (s : string) :
  PyStr.split sep (String c s) =
    if Ascii.eqb c sep then EmptyString :: PyStr.split sep s
    else match PyStr.split sep s with
         | field :: fields => String c field :: fields
         | [] => []
         end.
Proof.
  unfold PyStr.split; simpl.
  destruct (PyStr.split_fields sep s) as [field fields].
  by destruct (Ascii.eqb c sep).
Qed.

Lemma split_length (sep : ascii) (s : string) :
  length (PyStr.split sep s) = S (count_sep sep s).
Proof.
  induction s as [|c s IH]; [done |].
  rewrite split_cons; simpl.
  destruct (Ascii.eqb c sep); simpl; [by rewrite IH |].
  destruct (PyStr.split sep s); simpl in *; [discriminate | done].
Qed.

Lemma split_no_sep (sep : ascii) (s : string) :
  count_sep sep s = O -> PyStr.split sep s = [s].
Proof.
  induction s as [|c s IH]; [done |].
  rewrite split_cons; simpl.
  destruct (Ascii.eqb c sep); [discriminate |].
  intros H. by rewrite (IH H).
Qed.

Lemma split_one_sep (sep : ascii) (s : string) :
  count_sep sep s = 1%nat ->
  exists left right,
    s = left +:+ String sep right /\ PyStr.split sep s = [left; right].
Proof.
  induction s as [|c s IH]; [discriminate |].
  rewrite split_cons; simpl.
  destruct (Ascii.eqb_spec c sep) as [-> | Hne]; intros H.
  - exists EmptyString, s. split; [done |].
    rewrite split_no_sep; [done | lia].
  - destruct (IH H) as (left & right & -> & Hsplit).
    exists (String c left), right. by rewrite Hsplit.
Qed.

(** ** The label filter *)

Lemma parse_label_no_sep (raw : string) :
  count_sep ":" raw = O -> parse_label raw = Some ("*"%string, raw).
Proof. intros H. unfold parse_label. by rewrite split_no_sep. Qed.

Lemma parse_label_one_sep (raw : string) :
  count_sep ":" raw = 1%nat ->
  exists left right,
    raw = left +:+ ":" +:+ right /\ parse_label raw = Some (left, right).
Proof.
  intros H. destruct (split_one_sep _ _ H) as (left & right & -> & Hsplit).
  exists left, right. unfold parse_label. by rewrite Hsplit.
Qed.

Lemma parse_label_more_sep (raw : string) :
  (2 <= count_sep ":" raw)%nat -> parse_label raw = None.
Proof.
  intros H. unfold parse_label.
  pose proof (split_length ":" raw) as Hlen.
  destruct (PyStr.split ":" raw) as [|v0 [|v1 [|v2 vs]]]; simpl in Hlen;
    [lia | lia | lia | done].
Qed.

Lemma query_loop_label_invalid (query raw : string) items :
  parse_label raw = None ->
  query_loop query (("label"%string, VStr raw) :: items) = query.
Proof. intros H. simpl. by rewrite H. Qed.

(** C6. Label parsing splits the raw value on [':']: with no separator the
    pair is [("*", raw)]; with exactly one it is the token on its left and
    the token on its right; with two or more there is no pair and the
    filter adds no constraint to the query. In particular ["x"] gives
    [("*", "x")], ["a:b"] gives [("a", "b")] and ["a:b:c"] gives no pair. *)
Theorem parse_label_spec (raw : string) :
  match count_sep ":" raw with
  | O => parse_label raw = Some ("*"%string, raw)
  | S O =>
      exists left right,
        raw = left +:+ ":" +:+ right /\ parse_label raw = Some (left, right)
  | _ =>
      parse_label raw = None /\
      forall query items,
        query_loop query (("label"%string, VStr raw) :: items) = query
  end
  /\ parse_label "x" = Some ("*", "x")%string
  /\ parse_label "a:b" = Some ("a", "b")%string
  /\ parse_label "a:b:c" = None.
Proof.
  split; [| done].
  destruct (count_sep ":" raw) as [|[|n]] eqn:Hcount.
  - by apply parse_label_no_sep.
  - by apply parse_label_one_sep.
  - assert (parse_label raw = None) as H by (apply parse_label_more_sep; lia).
    split; [done |]. intros. by apply query_loop_label_invalid.
Qed.

(** ** The query of scalar filters *)

Lemma separators_lookup (field : string) :
  default ":"%string (separators !! field) = operator field.
Proof.
  unfold separators, operator.
  destruct (decide (field = "type"%string)) as [-> | Htype]; [done |].
  rewrite lookup_insert_ne by done.
  destruct (decide (field = "system"%string)) as [-> | Hsystem]; [done |].
  rewrite lookup_singleton_ne by done. simpl.
  by rewrite decide_False by (intros [? | ?]; done).
Qed.

Lemma query_loop_scalar (query : string) (items : list (string * string)) :
  Forall (fun item => item.1 <> "label"%string) items ->
  query_loop query (scalar_item <$> items) =
    query +:+ foldr (fun item rest => scalar_constraint item +:+ rest) "" items.
Proof.
  intros Hitems. revert query.
  induction Hitems as [|[field s] items Hfield _ IH]; intros query.
  - simpl. by rewrite append_nil_r.
  - simpl in Hfield. cbn [fmap list_fmap scalar_item fst snd query_loop foldr].
    apply String.eqb_neq in Hfield. rewrite Hfield.
    rewrite IH, separators_lookup. unfold scalar_constraint; simpl.
    by rewrite !append_assoc.
Qed.

(** C5. When every filter that [_basic_search] iterates over (the entry
    kind included) is a scalar string on a field other than [label], the
    query is the term followed, for each field in insertion order, by
    [" AND field<op>value"], where [<op>] is ['='] for the fields [type] and
    [system] and [':'] for every other field, whatever the value. *)
Theorem build_query_scalar_filters (query_term : string)
  (entry_type : option string) (additional_filters : list (string * value))
  (items : list (string * string)) :
  dict_set "type" (entry_type_value entry_type) additional_filters =
    (fun item => (item.1, VStr item.2)) <$> items ->
  Forall (fun item => item.1 <> "label"%string) items ->
  build_query query_term entry_type additional_filters =
    query_term +:+
    foldr
      (fun item rest =>
         " AND " +:+ item.1
           +:+ (if decide (item.1 = "type" \/ item.1 = "system")%string
                then "=" else ":")
           +:+ item.2 +:+ rest)
      "" items.
Proof.
  intros Hfilters Hitems. unfold build_query. rewrite Hfilters.
  change (query_loop query_term (scalar_item <$> items) = query_term +:+
    foldr (fun item rest =>
             " AND " +:+ item.1 +:+ operator item.1 +:+ item.2 +:+ rest) ""
      items).
  rewrite query_loop_scalar by done. f_equal.
  clear. induction items as [|item items IH]; [done |].
  simpl. rewrite <- IH. unfold scalar_constraint.
  by rewrite !append_assoc.
Qed.

Lemma build_query_scalar_filters_witness :
  build_query "orders" (Some "table"%string)
    [("name", VStr "ord"); ("system", VStr "bq")]%string =
  "orders AND name:ord AND system=bq AND type=table"%string.
Proof.
  apply (build_query_scalar_filters "orders" (Some "table"%string)
           [("name", VStr "ord"); ("system", VStr "bq")]%string
           [("name", "ord"); ("system", "bq"); ("type", "table")]%string).
  - reflexivity.
  - repeat constructor; simpl; discriminate.
Defined.

(** ** Filtered search *)

Lemma dict_set_fresh {V} (k : string) (v : V) (d : list (string * V)) :
  k ∉ d.*1 -> dict_set k v d = d ++ [(k, v)].
Proof.
  induction d as [|[k' v'] d IH]; intros Hfresh; [done |].
  simpl in *. apply not_elem_of_cons in Hfresh as [Hne Hfresh].
  destruct (String.eqb_spec k' k) as [-> | _]; [done |].
  by rewrite IH.
Qed.

Lemma translate_foldl (_filters : gmap string value)
  (table : list (string * string)) (filters : list (string * value)) :
  NoDup (filters.*1 ++ table.*2) ->
  foldl
    (fun filters '(search_field_name, gcp_field_name, defaults) =>
       let values := default defaults (_filters !! search_field_name) in
       if value_truthy values then dict_set gcp_field_name values filters
       else filters)
    filters ((fun names => (names.1, names.2, VNone)) <$> table) =
  filters ++ omap (forwarded _filters) table.
Proof.
  revert filters.
  induction table as [|[search_field_name gcp_field_name] table IH];
    intros filters Hnodup.
  - simpl. by rewrite app_nil_r.
  - cbn [fmap list_fmap foldl omap list_omap fst snd] in *.
    apply NoDup_app in Hnodup as (Hfilters & Hdisjoint & Htable).
    apply NoDup_cons in Htable as [Hfresh Htable].
    assert (NoDup (filters.*1 ++ table.*2)) as Hskip.
    { apply NoDup_app. repeat split; [done | | done].
      intros k Hk Hin. apply (Hdisjoint k Hk). by right. }
    unfold forwarded at 1; cbn [fst snd].
    destruct (_filters !! search_field_name) as [values|];
      cbn [default from_option id value_truthy]; [| by apply IH].
    destruct (value_truthy values); [| by apply IH].
    rewrite dict_set_fresh by (intros Hin; apply (Hdisjoint _ Hin); by left).
    rewrite IH; [by rewrite <- app_assoc |].
    rewrite fmap_app; simpl. rewrite <- app_assoc; simpl.
    apply NoDup_app. repeat split; [done | | by apply NoDup_cons].
    intros k Hk Hin. apply (Hdisjoint k Hk Hin).
Qed.

Lemma translate_filters_forwarded (_filters : gmap string value) :
  translate_filters _filters = omap (forwarded _filters) translation_table.
Proof.
  unfold translate_filters.
  change filter_specs
    with ((fun names : string * string => (names.1, names.2, VNone))
            <$> translation_table).
  rewrite translate_foldl; [done |].
  compute_done.
Qed.

Lemma forwarded_keys (_filters : gmap string value)
  (table : list (string * string)) (k : string) :
  k ∈ (omap (forwarded _filters) table).*1 -> k ∈ table.*2.
Proof.
  induction table as [|[search_field_name gcp_field_name] table IH];
    [done |].
  cbn [omap list_omap fmap list_fmap snd].
  destruct (forwarded _filters (search_field_name, gcp_field_name))
    as [[gcp values]|] eqn:Hforwarded.
  - unfold forwarded in Hforwarded; cbn [fst snd] in Hforwarded.
    destruct (_filters !! search_field_name) as [values'|]; [| done].
    destruct (value_truthy values'); [| done].
    injection Hforwarded as <- <-.
    cbn [fmap list_fmap fst]. rewrite !elem_of_cons.
    intros [-> | Hin]; [by left | right; by apply IH].
  - intros Hin. apply elem_of_cons. right. by apply IH.
Qed.


Lemma split_index_head (index : string) :
  exists entry_type, getitem (PyStr.split "_" index) 0 = Ok entry_type.
Proof.
  pose proof (split_length "_" index) as Hlen.
  destruct (PyStr.split "_" index) as [|entry_type parts]; [done |].
  by exists entry_type.
Qed.


(** ** Table normalisation *)

Lemma process_table_int (entry : SearchCatalogResult) (n : Z) :
  resolved_system entry = SystemInt n ->
  _process_table_resource entry =
    (name ← getitem (PyStr.split "/" (linked_resource entry)) (-1);
     schema ← getitem (PyStr.split "/" (linked_resource entry)) (-3);
     part1 ← getitem (PyStr.split "/" (relative_resource_name entry)) 1;
     part3 ← getitem (PyStr.split "/" (relative_resource_name entry)) 3;
     database ←
       read_local "database"
         (if n =? 1 then Some "bigquery"%string else None);
     Ok {| Table.database := database;
           Table.cluster := part1 +:+ "__" +:+ part3;
           Table.schema := schema;
           Table.name := name;
           Table.tags := [];
           Table.badges := [];
           Table.last_updated_timestamp := None;
           Table.column_names := [];
           Table.key := relative_resource_name entry |}).
Proof.
  unfold resolved_system, _process_table_resource. intros ->.
  destruct (getitem (PyStr.split "/" (linked_resource entry)) (-1));
    [rewrite !bind_Ok | done].
  by destruct (getitem (PyStr.split "/" (linked_resource entry)) (-3)).
Qed.

Lemma getitem_in_range {A} (parts : list A) (i : Z) :
  - Z.of_nat (length parts) <= i < Z.of_nat (length parts) ->
  exists a, getitem parts i = Ok a.
Proof.
  intros Hi. unfold getitem, PyStr.index.
  destruct (0 <=? i) eqn:Hsign; simpl.
  - apply Z.leb_le in Hsign.
    destruct (i <? Z.of_nat (length parts)) eqn:Hlt; [| lia].
    destruct (lookup_lt_is_Some_2 parts (Z.to_nat i)) as [a ->]; [lia |].
    by exists a.
  - apply Z.leb_gt in Hsign.
    destruct (- Z.of_nat (length parts) <=? i) eqn:Hle; [| lia].
    destruct (i <? 0) eqn:Hneg; [| lia]. simpl.
    destruct (lookup_lt_is_Some_2 parts
                (Z.to_nat (Z.of_nat (length parts) + i))) as [a ->]; [lia |].
    by exists a.
Qed.

Lemma process_table_tags (entry : SearchCatalogResult) (table : Table.Table) :
  _process_table_resource entry = Ok table ->
  Table.tags table = [] /\ Table.badges table = [].
Proof.
  unfold _process_table_resource.
  destruct (getitem (PyStr.split "/" (linked_resource entry)) (-1))
    as [name|]; [rewrite bind_Ok | done].
  destruct (match system_or _ _ with SystemInt _ => _ | SystemStr _ => _ end)
    as [[database schema]|]; [rewrite bind_Ok | done].
  destruct (getitem _ 1) as [part1|]; [rewrite bind_Ok | done].
  destruct (getitem _ 3) as [part3|]; [rewrite bind_Ok | done].
  destruct database as [database|]; [| done].
  simpl. by intros [= <-].
Qed.

Example process_table_generic_system :
  _process_table_resource
    {| linked_resource := "//metastore/warehouse/sales/orders";
       relative_resource_name :=
         "projects/p1/locations/US/entryGroups/hive/entries/sales_orders";
       user_specified_system := SystemStr "hive";
       integrated_system := SystemInt 0 |} =
  Ok {| Table.database := "hive";
        Table.cluster := "p1__US";
        Table.schema := "sales";
        Table.name := "orders";
        Table.tags := [];
        Table.badges := [];
        Table.last_updated_timestamp := None;
        Table.column_names := [];
        Table.key :=
          "projects/p1/locations/US/entryGroups/hive/entries/sales_orders" |}.
Proof. reflexivity. Qed.

(** C8. A table entry whose linked resource is ["a/b/c/mytable"] and whose
    system resolves to the integer 1 is normalised with database
    ["bigquery"], name ["mytable"] and schema ["b"], the third segment from
    the end of the linked resource; an error can only come from the cluster,
    which reads segments 1 and 3 of the relative resource name. Whatever the
    entry, a record that normalisation returns has no tags and no badges. *)
Theorem table_normalization_bigquery (entry : SearchCatalogResult)
  (Hlinked : linked_resource entry = "a/b/c/mytable"%string)
  (Hsystem : resolved_system entry = SystemInt 1) :
  _process_table_resource entry =
    (part1 ← getitem (PyStr.split "/" (relative_resource_name entry)) 1;
     part3 ← getitem (PyStr.split "/" (relative_resource_name entry)) 3;
     Ok {| Table.database := "bigquery";
           Table.cluster := part1 +:+ "__" +:+ part3;
           Table.schema := "b";
           Table.name := "mytable";
           Table.tags := [];
           Table.badges := [];
           Table.last_updated_timestamp := None;
           Table.column_names := [];
           Table.key := relative_resource_name entry |})
  /\ getitem (PyStr.split "/" (linked_resource entry)) (-3) = Ok "b"%string
  /\ (forall entry' table,
        _process_table_resource entry' = Ok table ->
        Table.tags table = [] /\ Table.badges table = []).
Proof.
  split; [| split; [by rewrite Hlinked | exact process_table_tags]].
  rewrite (process_table_int entry 1 Hsystem), Hlinked.
  change (getitem (PyStr.split "/" "a/b/c/mytable") (-1))
    with (Ok "mytable"%string).
  change (getitem (PyStr.split "/" "a/b/c/mytable") (-3)) with (Ok "b"%string).
  rewrite !bind_Ok.
  destruct (getitem _ 1) as [part1|]; [rewrite !bind_Ok | done].
  by destruct (getitem _ 3) as [part3|].
Qed.

Lemma table_normalization_bigquery_witness :
  _process_table_resource bigquery_entry =
    Ok {| Table.database := "bigquery";
          Table.cluster := "p1__US";
          Table.schema := "b";
          Table.name := "mytable";
          Table.tags := [];
          Table.badges := [];
          Table.last_updated_timestamp := None;
          Table.column_names := [];
          Table.key :=
            "projects/p1/locations/US/entryGroups/@bigquery/entries/e1" |}.
Proof.
  exact (proj1 (table_normalization_bigquery bigquery_entry eq_refl eq_refl)).
Defined.

(** C10. A table entry whose system resolves to an integer other than 1
    is not normalised: an exception is raised, and it is the unbound
    [database] whenever the linked resource has three segments and the
    relative resource name four. An entry with an integer system is
    normalised only when the integer is 1. *)
Theorem table_normalization_unknown_integer_system
  (entry : SearchCatalogResult) (n : Z)
  (Hsystem : resolved_system entry = SystemInt n) :
  (n <> 1 ->
   (exists e, _process_table_resource entry = Err e) /\
   ((3 <= length (PyStr.split "/" (linked_resource entry)))%nat ->
    (4 <= length (PyStr.split "/" (relative_resource_name entry)))%nat ->
    _process_table_resource entry = Err (UnboundLocalError "database")))
  /\ (forall table, _process_table_resource entry = Ok table -> n = 1).
Proof.
  rewrite (process_table_int entry n Hsystem).
  assert (n <> 1 ->
          read_local "database"
            (if n =? 1 then Some "bigquery"%string else None) =
          Err (UnboundLocalError "database")) as Hunbound.
  { intros Hn. by destruct (Z.eqb_spec n 1). }
  split.
  - intros Hn. rewrite (Hunbound Hn). split.
    + destruct (getitem _ (-1)) as [name|]; [rewrite bind_Ok | by eexists].
      destruct (getitem _ (-3)) as [schema|]; [rewrite bind_Ok | by eexists].
      destruct (getitem _ 1) as [part1|]; [rewrite bind_Ok | by eexists].
      destruct (getitem _ 3) as [part3|]; [rewrite bind_Ok | by eexists].
      by eexists.
    + intros Hlinked Hrelative.
      destruct (getitem_in_range (PyStr.split "/" (linked_resource entry)) (-1))
        as [name ->]; [lia |].
      destruct (getitem_in_range (PyStr.split "/" (linked_resource entry)) (-3))
        as [schema ->]; [lia |].
      destruct (getitem_in_range
                  (PyStr.split "/" (relative_resource_name entry)) 1)
        as [part1 ->]; [lia |].
      destruct (getitem_in_range
                  (PyStr.split "/" (relative_resource_name entry)) 3)
        as [part3 ->]; [lia |].
      done.
  - intros table Htable. destruct (Z.eqb_spec n 1) as [-> | Hn]; [done |].
    rewrite (Hunbound Hn) in Htable.
    destruct (getitem _ (-1)) as [name|]; [rewrite bind_Ok in Htable | done].
    destruct (getitem _ (-3)) as [schema|]; [rewrite bind_Ok in Htable | done].
    destruct (getitem _ 1) as [part1|]; [rewrite bind_Ok in Htable | done].
    by destruct (getitem _ 3) as [part3|].
Qed.

Lemma table_normalization_unknown_integer_system_witness :
  _process_table_resource unspecified_entry =
    Err (UnboundLocalError "database").
Proof.
  refine (proj2
            (proj1
               (table_normalization_unknown_integer_system unspecified_entry 2
                  eq_refl)
               _)
            _ _).
  - discriminate.
  - vm_compute. lia.
  - vm_compute. lia.
Defined.

(** ** Pagination *)

Lemma last_page_count_cons {E} (count : option Z) (page : list E) results :
  last_page_count count (page :: results) =
    last_page_count (Some (Z.of_nat (length page))) results.
Proof.
  unfold last_page_count. destruct results as [|next results]; [done |].
  rewrite last_cons_cons.
  destruct (last (next :: results)) eqn:Hlast; [done |].
  by apply last_None in Hlast.
Qed.

Section PaginationProperties.
Context {E R : Type}.
Variable process : E -> result R.
Variable page_size : Z.
Variable page_index : Z.

Lemma page_loop_other (position count : Z) (entries : list R) (page : list E) :
  position <> page_index ->
  page_loop process page_index position count entries page =
    Ok (count + Z.of_nat (length page), entries).
Proof.
  intros Hposition. revert count.
  induction page as [|element page IH]; intros count; simpl.
  - do 2 f_equal. lia.
  - destruct (Z.eqb_spec position page_index); [done |].
    rewrite IH. do 2 f_equal. lia.
Qed.

Lemma page_loop_requested (count : Z) (entries : list R) (page : list E)
  (processed : list R) :
  Forall2 (fun element r => process element = Ok r) page processed ->
  page_loop process page_index page_index count entries page =
    Ok (count + Z.of_nat (length page), entries ++ processed).
Proof.
  intros Hprocessed. revert count entries.
  induction Hprocessed as [|element r page processed Hr _ IH];
    intros count entries; simpl.
  - rewrite app_nil_r. do 2 f_equal. lia.
  - rewrite Z.eqb_refl, Hr, bind_Ok, IH, <- app_assoc.
    do 2 f_equal. lia.
Qed.

Lemma pages_loop_other (total_count position : Z) (count : option Z)
  (entries : list R) (results : list (list E)) :
  page_index < position \/ position + Z.of_nat (length results) <= page_index ->
  pages_loop process page_size page_index total_count position count entries
    results =
    Ok (total_count + Z.of_nat (length results) * page_size,
        last_page_count count results, entries).
Proof.
  revert total_count position count.
  induction results as [|page results IH];
    intros total_count position count Hposition.
  - simpl. do 3 f_equal. lia.
  - cbn [length] in Hposition. cbn [pages_loop length].
    rewrite page_loop_other by lia.
    rewrite bind_Ok, IH by lia.
    rewrite last_page_count_cons. do 3 f_equal; lia.
Qed.

Lemma pages_loop_requested (total_count position : Z) (count : option Z)
  (entries : list R) (results : list (list E)) (page : list E)
  (processed : list R) :
  position <= page_index ->
  results !! Z.to_nat (page_index - position) = Some page ->
  Forall2 (fun element r => process element = Ok r) page processed ->
  pages_loop process page_size page_index total_count position count entries
    results =
    Ok (total_count + Z.of_nat (length results) * page_size,
        last_page_count count results, entries ++ processed).
Proof.
  intros Hposition Hpage Hprocessed.
  revert total_count position count Hposition Hpage.
  induction results as [|first results IH];
    intros total_count position count Hposition Hpage; [done |].
  cbn [pages_loop length]. rewrite last_page_count_cons.
  destruct (decide (position = page_index)) as [-> | Hne].
  - rewrite Z.sub_diag in Hpage. simpl in Hpage. injection Hpage as ->.
    rewrite (page_loop_requested _ _ _ _ Hprocessed), bind_Ok.
    rewrite pages_loop_other by lia.
    do 3 f_equal; lia.
  - rewrite page_loop_other by done. rewrite bind_Ok.
    rewrite (IH (total_count + page_size) (position + 1)); [| lia |].
    + do 3 f_equal; lia.
    + replace (Z.to_nat (page_index - position))
        with (S (Z.to_nat (page_index - (position + 1)))) in Hpage by lia.
      done.
Qed.

(** A stream of pages whose requested page is processed without error. *)
Lemma paginate_total_and_entries (results : list (list E)) (page final : list E)
  (processed : list R) :
  0 <= page_index ->
  results !! Z.to_nat page_index = Some page ->
  last results = Some final ->
  Forall2 (fun element r => process element = Ok r) page processed ->
  paginate process page_size page_index results =
    Ok ((Z.of_nat (length results) - 1) * page_size
          + Z.of_nat (length final),
        processed).
Proof.
  intros Hindex Hpage Hfinal Hprocessed. unfold paginate.
  rewrite (pages_loop_requested 0 0 None [] results page processed);
    [| done | by rewrite Z.sub_0_r | done].
  rewrite bind_Ok. unfold last_page_count. rewrite Hfinal.
  simpl. do 2 f_equal. lia.
Qed.

Lemma paginate_no_pages :
  paginate process page_size page_index [] =
    Err (UnboundLocalError "current_page_count").
Proof. reflexivity. Qed.

End PaginationProperties.

Lemma sum_sizes_cons {E} (page : list E) (results : list (list E)) :
  sum_sizes (page :: results) = Z.of_nat (length page) + sum_sizes results.
Proof. reflexivity. Qed.

Lemma sum_sizes_full_pages {E} (page_size : Z) (results : list (list E))
  (final : list E) :
  last results = Some final ->
  (forall i page,
     results !! i = Some page -> (S i < length results)%nat ->
     Z.of_nat (length page) = page_size) ->
  sum_sizes results =
    (Z.of_nat (length results) - 1) * page_size + Z.of_nat (length final).
Proof.
  revert final. induction results as [|first results IH];
    intros final Hfinal Hfull; [done |].
  destruct results as [|next results].
  - injection Hfinal as ->. simpl. lia.
  - rewrite last_cons_cons in Hfinal.
    rewrite sum_sizes_cons, (IH final Hfinal).
    + rewrite (Hfull O first) by (simpl; done || lia).
      cbn [length]. lia.
    + intros i page Hpage Hi. apply (Hfull (S i)); [done |].
      cbn [length] in *. lia.
Qed.

Lemma process_all {E R} (process : E -> result R) (page : list E) :
  (forall element, element ∈ page -> exists r, process element = Ok r) ->
  exists processed,
    Forall2 (fun element r => process element = Ok r) page processed.
Proof.
  induction page as [|element page IH]; intros Hpage.
  - exists []. constructor.
  - destruct (Hpage element) as [r Hr]; [by left |].
    destruct IH as [processed Hprocessed].
    { intros element' Hin. apply Hpage. by right. }
    exists (r :: processed). by constructor.
Qed.

(** C1, as the code has it. For a stream of [N] pages and a page index
    within range, when every entry of the requested page is normalised
    without error, the entries returned are those of the requested page, one
    per element, and the total count is [(N - 1) * page_size] plus the size
    of the last page, whatever the page index; it is the sum of all the page
    sizes when every page but the last holds [page_size] entries. *)
Theorem paginate_requested_page {E R} (process : E -> result R)
  (page_size page_index : Z) (results : list (list E)) (page : list E)
  (Hindex : 0 <= page_index)
  (Hpage : results !! Z.to_nat page_index = Some page)
  (Hprocess :
     forall element, element ∈ page -> exists r, process element = Ok r) :
  exists (final : list E) (entries : list R),
    last results = Some final /\
    paginate process page_size page_index results =
      Ok ((Z.of_nat (length results) - 1) * page_size
            + Z.of_nat (length final),
          entries) /\
    length entries = length page /\
    Forall2 (fun element r => process element = Ok r) page entries /\
    ((forall i full,
        results !! i = Some full -> (S i < length results)%nat ->
        Z.of_nat (length full) = page_size) ->
     (Z.of_nat (length results) - 1) * page_size + Z.of_nat (length final) =
       sum_sizes results).
Proof.
  destruct (last results) as [final|] eqn:Hfinal;
    [| apply last_None in Hfinal; by subst].
  destruct (process_all process page Hprocess) as [entries Hentries].
  exists final, entries. split; [done |]. split; [| split; [| split]].
  - by apply (paginate_total_and_entries process page_size page_index results page).
  - symmetry. by eapply Forall2_length.
  - done.
  - intros Hfull. symmetry. by apply sum_sizes_full_pages.
Qed.

Lemma paginate_requested_page_witness :
  paginate (fun n : nat => Ok n) 2 1 [[1; 2]; [3; 4]; [5]]%nat =
    Ok (5, [3; 4]%nat).
Proof.
  destruct (paginate_requested_page (fun n : nat => Ok n) 2 1
              [[1; 2]; [3; 4]; [5]]%nat [3; 4]%nat)
    as (final & entries & Hfinal & Hpaginate & _);
    [lia | reflexivity | intros element _; by exists element |].
  injection Hfinal as <-.
  rewrite Hpaginate. vm_compute in Hpaginate.
  injection Hpaginate as <-. reflexivity.
Defined.

(** Four pages of one entry each, a page size of 2 and the first page
    requested: the total count is [4 * 2 - (2 - 1) = 7], which is further than
    2 from the size of the first page, and also from the sum of no page and
    from the sum of all four. *)
Lemma total_count_within_page_size_counterexample :
  ~ total_count_within_page_size 2 0 1 [[1]; [2]; [3]; [4]]%nat
      (paginate (fun n : nat => Ok n) 2 0 [[1]; [2]; [3]; [4]]%nat)
  /\ ~ total_count_within_page_size 2 0 0 [[1]; [2]; [3]; [4]]%nat
        (paginate (fun n : nat => Ok n) 2 0 [[1]; [2]; [3]; [4]]%nat)
  /\ ~ total_count_within_page_size 2 0 4 [[1]; [2]; [3]; [4]]%nat
        (paginate (fun n : nat => Ok n) 2 0 [[1]; [2]; [3]; [4]]%nat).
Proof.
  repeat split;
    intros (total_count & entries & page & Houtcome & _ & _ & Hbound);
    vm_compute in Houtcome; injection Houtcome as <- <-;
    vm_compute in Hbound; by apply Hbound.
Qed.

(** ** The search call *)

(** C9. When the remote result stream has no page, [_basic_search] raises:
    [current_page_count], assigned only inside the loop over the pages, is
    unbound when the total count is corrected. No result page is returned,
    in particular not the empty one. *)
Theorem basic_search_no_pages (re_match : string -> string -> bool)
  (self : GCPDataCatalogProxy) (query_term : string) (page_index : Z)
  (entry_type : option string) (additional_filters : list (string * value))
  (Hresults :
     search_catalog (client self)
       (build_query query_term entry_type additional_filters)
       (scope self) (page_size self) = Ok []) :
  _basic_search re_match self query_term page_index entry_type
    additional_filters = Err (UnboundLocalError "current_page_count")
  /\ _basic_search re_match self query_term page_index entry_type
       additional_filters <> Ok (0, []).
Proof.
  assert (_basic_search re_match self query_term page_index entry_type
            additional_filters = Err (UnboundLocalError "current_page_count"))
    as Hraise.
  { unfold _basic_search. rewrite Hresults, bind_Ok.
    apply paginate_no_pages. }
  split; [done |]. by rewrite Hraise.
Qed.

Lemma basic_search_no_pages_witness :
  _basic_search no_match (proxy_returning []) "orders" 0 (Some "table"%string) []
    = Err (UnboundLocalError "current_page_count").
Proof.
  exact (proj1 (basic_search_no_pages no_match (proxy_returning []) "orders" 0
                  (Some "table"%string) [] eq_refl)).
Defined.

(** C2, on the code. A badge filter with three tokens ends the loop over
    the filters: the query sent for the request
    [{filters: {"badge": "a:b:c"}}] on a table index is the bare term, while
    the request without the badge filter sends the term with the entry-kind
    constraint. A filter placed after the label one is lost as well. *)
Theorem invalid_label_drops_later_constraints :
  fetch_search_results_with_filter no_match echo_proxy "orders"
    {[ "filters"%string := {[ "badge"%string := VStr "a:b:c" ]} ]}
    0 "table_search_index" = Err (GoogleAPICallError "orders")
  /\ fetch_search_results_with_filter no_match echo_proxy "orders"
       {[ "filters"%string := ∅ ]} 0 "table_search_index" =
     Err (GoogleAPICallError "orders AND type=table")
  /\ build_query "orders" (Some "table"%string)
       [("label", VStr "a:b:c"); ("system", VStr "bq")]%string = "orders"%string
  /\ build_query "orders" (Some "table"%string) [("system", VStr "bq")]%string
     = "orders AND system=bq AND type=table"%string.
Proof. repeat split; reflexivity. Qed.

(** *** Where the trimming is harmless *)

Lemma disjunction_acc (field separator : string) (values : list string)
  (_query : string) :
  disjunction field separator values _query =
    _query +:+ disjunction field separator values "".
Proof.
  revert _query. induction values as [|value values IH]; intros _query; simpl.
  - by rewrite append_nil_r.
  - rewrite IH.
    rewrite (IH ("" +:+ field +:+ separator +:+ value +:+ " OR ")).
    by rewrite !append_assoc.
Qed.

Lemma disjunction_joined (field separator : string) (values : list string) :
  values <> [] ->
  disjunction field separator values "" =
    joined field separator values +:+ " OR ".
Proof.
  induction values as [|value values IH]; intros Hvalues; [done |].
  cbn [disjunction]. rewrite disjunction_acc.
  destruct values as [|next values].
  - unfold joined. simpl. by rewrite append_nil_r, !append_assoc.
  - rewrite IH by done. unfold joined.
    cbn [fmap list_fmap String.concat].
    change ("" +:+ field +:+ separator +:+ value +:+ " OR ")
      with (field +:+ separator +:+ value +:+ " OR ").
    by rewrite !append_assoc.
Qed.

Lemma lstrip_starts_clean (chars s t : string) :
  starts_clean chars s = true -> PyStr.lstrip chars (s +:+ t) = s +:+ t.
Proof.
  destruct s as [|c s]; [done |]. rewrite append_cons. simpl.
  by destruct (PyStr.mem c chars).
Qed.

Lemma rstrip_app_stripped (chars s t : string) :
  PyStr.rstrip chars t = EmptyString ->
  PyStr.rstrip chars (s +:+ t) = PyStr.rstrip chars s.
Proof.
  intros Ht. induction s as [|c s IH]; [done |].
  rewrite append_cons. simpl. by rewrite IH.
Qed.

Lemma rstrip_ends_clean (chars s : string) :
  ends_clean chars s = true -> PyStr.rstrip chars s = s.
Proof.
  induction s as [|c s IH]; [done |].
  destruct s as [|d s].
  - simpl. by destruct (PyStr.mem c chars).
  - intros Hclean. change (ends_clean chars (String d s) = true) in Hclean.
    cbn [PyStr.rstrip] in *. by rewrite (IH Hclean).
Qed.

Lemma strip_literal_suffix (s : string) :
  starts_clean " OR " s = true -> ends_clean " OR " s = true ->
  PyStr.strip " OR " (s +:+ " OR ") = s.
Proof.
  intros Hstart Hend. unfold PyStr.strip.
  rewrite lstrip_starts_clean by done.
  rewrite rstrip_app_stripped by done.
  by apply rstrip_ends_clean.
Qed.

(** X27. A non-empty list-valued filter on a field other than [label]
    adds [" AND (<field><op><v1> OR ... OR <field><op><vn>)"] when the joined
    disjunction does not start, and does not end, with ['O'], ['R'] or a
    space; the filters that follow are processed as usual. *)
Lemma query_loop_list_clean (query field : string) (values : list string)
  (items : list (string * value)) :
  field <> "label"%string -> values <> [] ->
  starts_clean " OR " (joined field (operator field) values) = true ->
  ends_clean " OR " (joined field (operator field) values) = true ->
  query_loop query ((field, VList values) :: items) =
    query_loop
      (query +:+ " AND (" +:+ joined field (operator field) values +:+ ")")
      items.
Proof.
  intros Hfield Hvalues Hstart Hend. cbn [query_loop].
  apply String.eqb_neq in Hfield. rewrite Hfield, separators_lookup.
  rewrite disjunction_joined by done.
  rewrite strip_literal_suffix by done.
  destruct (joined field (operator field) values); [done |].
  by rewrite append_cons.
Qed.

Example clean_disjunction :
  build_query "orders" (Some "table"%string)
    [("tag", VList ["pii"; "gdpr"])]%string =
  "orders AND (tag:pii OR tag:gdpr) AND type=table"%string.
Proof. reflexivity. Qed.

(** C3, on the code. [strip(" OR ")] removes every leading and trailing
    ['O'], ['R'] and space: the one-element tag filter [["FOO"]] is sent as
    [tag:F], the last value of [["bq"; "COLOR"]] loses its final ["OR"], and a
    field whose name starts with ['O'] loses that letter. *)
Theorem disjunction_strip_removes_characters :
  fetch_search_results_with_filter no_match echo_proxy "orders"
    {[ "filters"%string := {[ "tag"%string := VList ["FOO"%string] ]} ]}
    0 "table_search_index" =
    Err (GoogleAPICallError "orders AND (tag:F) AND type=table")
  /\ fetch_search_results_with_filter no_match echo_proxy "orders"
       {[ "filters"%string :=
            {[ "tag"%string := VList ["bq"; "COLOR"]%string ]} ]}
       0 "table_search_index" =
     Err (GoogleAPICallError "orders AND (tag:bq OR tag:COL) AND type=table")
  /\ build_query "orders" (Some "table"%string)
       [("Owner", VList ["ann"; "bob"])]%string =
     "orders AND (wner:ann OR Owner:bob) AND type=table"%string.
Proof. repeat split; reflexivity. Qed.

Lemma user_search_container (re_match : string -> string -> bool)
  (self : GCPDataCatalogProxy) (query_term : string) (page_index : Z)
  (index : string) (container : SearchResult) :
  fetch_user_search_results re_match self query_term page_index index =
    Ok container ->
  exists total_results results,
    container = SearchTableResult total_results results.
Proof.
  unfold fetch_user_search_results.
  destruct (_basic_search _ _ _ _ _ _) as [[total_results results]|]; [| done].
  rewrite bind_Ok. intros [= <-]. by eexists _, _.
Qed.

Lemma dashboard_search_container (re_match : string -> string -> bool)
  (self : GCPDataCatalogProxy) (query_term : string) (page_index : Z)
  (index : string) (container : SearchResult) :
  fetch_dashboard_search_results re_match self query_term page_index index =
    Ok container ->
  exists total_results results,
    container = SearchDashboardResult total_results results.
Proof.
  unfold fetch_dashboard_search_results.
  destruct (_basic_search _ _ _ _ _ _) as [[total_results results]|]; [| done].
  rewrite bind_Ok. intros [= <-]. by eexists _, _.
Qed.

(** C4, on the code. A user search that succeeds returns the table
    container: over a stream of one empty page it returns
    [SearchTableResult 0 []]. *)
Theorem user_search_returns_table_container :
  fetch_user_search_results no_match (proxy_returning [[]]) "ann" 0 "" =
    Ok (SearchTableResult 0 [])
  /\ fetch_user_search_results no_match (proxy_returning [[]]) "ann" 0 "" <>
       Ok (SearchUserResult 0 []).
Proof. split; [reflexivity | discriminate]. Qed.

(** * Further properties *)

(** ** The query *)

Lemma split_app_sep (sep : ascii) (left right : string) :
  count_sep sep left = O ->
  PyStr.split sep (left +:+ String sep right) = left :: PyStr.split sep right.
Proof.
  induction left as [|c left IH]; intros Hleft.
  - change ("" +:+ String sep right) with (String sep right).
    by rewrite split_cons, Ascii.eqb_refl.
  - simpl in Hleft. rewrite append_cons, split_cons.
    destruct (Ascii.eqb c sep); [done |]. by rewrite IH.
Qed.

Lemma query_loop_term (query : string) (items : list (string * value)) :
  query_loop query items = query +:+ query_loop "" items.
Proof.
  revert query. induction items as [|[field values] items IH]; intros query.
  - simpl. by rewrite append_nil_r.
  - cbn [query_loop].
    destruct (String.eqb field "label").
    + destruct values as [|raw|l]; [done | | done].
      destruct (parse_label raw) as [[label_name label_value]|];
        [| by rewrite append_nil_r].
      rewrite IH. rewrite (IH ("" +:+ _)). by rewrite !append_assoc.
    + destruct values as [|s|l]; [done | |].
      * rewrite IH. rewrite (IH ("" +:+ _)). by rewrite !append_assoc.
      * destruct (negb _); [| done].
        rewrite IH. rewrite (IH ("" +:+ _)). by rewrite !append_assoc.
Qed.

(** X1. The query starts with the term, verbatim, and what follows the
    term does not depend on it. *)
Theorem build_query_term_verbatim (query_term : string)
  (entry_type : option string) (additional_filters : list (string * value)) :
  build_query query_term entry_type additional_filters =
    query_term +:+ build_query "" entry_type additional_filters.
Proof. unfold build_query. apply query_loop_term. Qed.

Lemma query_loop_app (query : string) (items rest : list (string * value)) :
  Forall (fun item => item.1 <> "label"%string) items ->
  query_loop query (items ++ rest) = query_loop (query_loop query items) rest.
Proof.
  intros Hitems. revert query.
  induction Hitems as [|[field values] items Hfield _ IH]; intros query;
    [done |].
  simpl in Hfield. apply String.eqb_neq in Hfield.
  cbn [app query_loop]. rewrite Hfield.
  destruct values as [|s|l]; [done | done |].
  by destruct (negb _).
Qed.

(** X2. A label filter without [':'] adds [" AND label.*:<value>"], one
    with a single [':'] adds [" AND label.<name>:<value>"]; in both cases the
    filters that follow are still processed. *)
Theorem label_filter_constraint (query left right : string)
  (items : list (string * value))
  (Hleft : count_sep ":" left = O) (Hright : count_sep ":" right = O) :
  query_loop query (("label"%string, VStr right) :: items) =
    query_loop (query +:+ " AND label.*:" +:+ right) items
  /\ query_loop query
       (("label"%string, VStr (left +:+ ":" +:+ right)) :: items) =
     query_loop (query +:+ " AND label." +:+ left +:+ ":" +:+ right) items.
Proof.
  split; cbn [query_loop]; rewrite String.eqb_refl, separators_lookup.
  - by rewrite (parse_label_no_sep right Hright).
  - unfold parse_label.
    change (left +:+ ":" +:+ right) with (left +:+ String ":" right).
    rewrite (split_app_sep ":" left right Hleft).
    by rewrite (split_no_sep ":" right Hright).
Qed.

Lemma label_filter_constraint_witness :
  query_loop "orders" [("label", VStr "pii"); ("type", VStr "table")]%string =
    "orders AND label.*:pii AND type=table"%string
  /\ query_loop "orders"
       [("label", VStr "team:data"); ("type", VStr "table")]%string =
     "orders AND label.team:data AND type=table"%string.
Proof.
  split.
  - exact (proj1 (label_filter_constraint "orders" "team" "pii"
                    [("type"%string, VStr "table")] eq_refl eq_refl)).
  - exact (proj2 (label_filter_constraint "orders" "team" "data"
                    [("type"%string, VStr "table")] eq_refl eq_refl)).
Defined.

(** *** The entry kind in a filtered search *)

Lemma forwarded_delete_ne (_filters : gmap string value) (k : string)
  (names : string * string) :
  k <> names.1 -> forwarded (delete k _filters) names = forwarded _filters names.
Proof. intros Hne. unfold forwarded. by rewrite lookup_delete_ne. Qed.

Lemma forwarded_delete (_filters : gmap string value) (k : string)
  (table : list (string * string)) :
  k ∉ table.*1 ->
  omap (forwarded (delete k _filters)) table = omap (forwarded _filters) table.
Proof.
  induction table as [|names table IH]; intros Hk; [done |].
  rewrite fmap_cons in Hk. apply not_elem_of_cons in Hk as [Hne Hk].
  cbn [omap list_omap]. rewrite forwarded_delete_ne by done.
  fold (omap (forwarded (delete k _filters)) table).
  fold (omap (forwarded _filters) table).
  by rewrite IH.
Qed.

Lemma translate_filters_badge (_filters : gmap string value) :
  translate_filters _filters =
    omap (forwarded _filters) translation_head ++
    match forwarded _filters ("badge", "label")%string with
    | Some item => [item]
    | None => []
    end.
Proof.
  rewrite translate_filters_forwarded.
  change translation_table
    with (translation_head ++ [("badge", "label")]%string).
  rewrite omap_app. reflexivity.
Qed.

Lemma translation_head_no_label (_filters : gmap string value) :
  Forall (fun item => item.1 <> "label"%string)
    (omap (forwarded _filters) translation_head).
Proof.
  apply Forall_forall. intros [k v] Hin Hk. simpl in Hk. subst k.
  assert ("label"%string ∈ translation_head.*2) as Hlabel.
  { apply (forwarded_keys _filters). apply list_elem_of_fmap.
    by exists ("label"%string, v). }
  revert Hlabel. compute_done.
Qed.

Lemma translation_head_no_type (_filters : gmap string value) :
  "type"%string ∉ (omap (forwarded _filters) translation_head).*1.
Proof.
  intros Hin. apply forwarded_keys in Hin. revert Hin. compute_done.
Qed.

Lemma translate_filters_without_badge (_filters : gmap string value) :
  translate_filters (delete "badge"%string _filters) =
    omap (forwarded _filters) translation_head.
Proof.
  rewrite translate_filters_badge.
  rewrite forwarded_delete by compute_done.
  unfold forwarded; cbn [fst snd]. rewrite lookup_delete_eq.
  by rewrite app_nil_r.
Qed.

Lemma build_query_without_badge (query_term entry_type : string)
  (_filters : gmap string value) :
  build_query query_term (Some entry_type)
    (translate_filters (delete "badge"%string _filters)) =
    query_loop query_term (omap (forwarded _filters) translation_head)
      +:+ " AND type=" +:+ entry_type.
Proof.
  unfold build_query. rewrite translate_filters_without_badge.
  rewrite dict_set_fresh by apply translation_head_no_type.
  rewrite query_loop_app by apply translation_head_no_label.
  reflexivity.
Qed.

Lemma build_query_with_badge (query_term entry_type : string)
  (_filters : gmap string value) (values : value) :
  _filters !! "badge"%string = Some values ->
  value_truthy values = true ->
  build_query query_term (Some entry_type) (translate_filters _filters) =
    query_loop
      (query_loop query_term (omap (forwarded _filters) translation_head))
      [("label"%string, values); ("type"%string, VStr entry_type)].
Proof.
  intros Hbadge Htruthy. unfold build_query.
  rewrite translate_filters_badge.
  unfold forwarded at 2; cbn [fst snd]. rewrite Hbadge, Htruthy.
  rewrite dict_set_fresh.
  - rewrite <- app_assoc. by rewrite query_loop_app
      by apply translation_head_no_label.
  - rewrite fmap_app. intros [Hin | Hin]%elem_of_app.
    + by apply (translation_head_no_type _filters).
    + revert Hin. compute_done.
Qed.

Lemma malformed_label_truthy (raw : string) :
  (2 <= count_sep ":" raw)%nat -> value_truthy (VStr raw) = true.
Proof. destruct raw; [simpl; lia | done]. Qed.

(** X3. In a filtered search, a badge filter with two or more [':'] removes
    the entry-kind constraint and nothing else: the query is the query of
    the same request without the badge filter, less its final
    [" AND type=<kind>"]. *)
Theorem malformed_badge_drops_entry_kind (query_term entry_type raw : string)
  (_filters : gmap string value)
  (Hbadge : _filters !! "badge"%string = Some (VStr raw))
  (Hraw : (2 <= count_sep ":" raw)%nat) :
  build_query query_term (Some entry_type)
    (translate_filters (delete "badge"%string _filters)) =
  build_query query_term (Some entry_type) (translate_filters _filters)
    +:+ " AND type=" +:+ entry_type.
Proof.
  rewrite build_query_without_badge.
  rewrite (build_query_with_badge _ _ _ _ Hbadge (malformed_label_truthy _ Hraw)).
  by rewrite query_loop_label_invalid by by apply parse_label_more_sep.
Qed.

Lemma malformed_badge_drops_entry_kind_witness :
  build_query "orders" (Some "table"%string)
    (translate_filters
       (delete "badge"%string
          {[ "database"%string := VStr "bq"; "badge"%string := VStr "a:b:c" ]}))
  = "orders AND system=bq AND type=table"%string
  /\ build_query "orders" (Some "table"%string)
       (translate_filters
          {[ "database"%string := VStr "bq"; "badge"%string := VStr "a:b:c" ]})
     = "orders AND system=bq"%string.
Proof.
  split; [| reflexivity].
  rewrite (malformed_badge_drops_entry_kind "orders" "table" "a:b:c"
             {[ "database"%string := VStr "bq";
                "badge"%string := VStr "a:b:c" ]});
    [reflexivity | reflexivity | vm_compute; lia].
Defined.

(** X4. In a filtered search, a badge filter given as a list adds no
    constraint: the query is that of the same request without the badge
    filter. *)
Theorem badge_list_ignored (query_term entry_type : string)
  (values : list string) (_filters : gmap string value)
  (Hbadge : _filters !! "badge"%string = Some (VList values)) :
  build_query query_term (Some entry_type) (translate_filters _filters) =
  build_query query_term (Some entry_type)
    (translate_filters (delete "badge"%string _filters)).
Proof.
  rewrite build_query_without_badge.
  destruct values as [|value values].
  - unfold build_query. rewrite translate_filters_badge.
    unfold forwarded at 2; cbn [fst snd]. rewrite Hbadge. cbn [value_truthy].
    rewrite app_nil_r.
    rewrite dict_set_fresh by apply translation_head_no_type.
    by rewrite query_loop_app by apply translation_head_no_label.
  - by rewrite (build_query_with_badge _ _ _ _ Hbadge eq_refl).
Qed.

Lemma badge_list_ignored_witness :
  build_query "orders" (Some "table"%string)
    (translate_filters {[ "badge"%string := VList ["pii"%string] ]}) =
  "orders AND type=table"%string.
Proof.
  rewrite (badge_list_ignored "orders" "table" ["pii"%string]
             {[ "badge"%string := VList ["pii"%string] ]});
    reflexivity.
Defined.

(** ** The pages *)

Section PaginationErrors.
Context {E R : Type}.
Variable process : E -> result R.
Variable page_size : Z.
Variable page_index : Z.

Lemma page_loop_error (count : Z) (entries : list R) (before after : list E)
  (element : E) (processed : list R) (e : exn) :
  Forall2 (fun element r => process element = Ok r) before processed ->
  process element = Err e ->
  page_loop process page_index page_index count entries
    (before ++ element :: after) = Err e.
Proof.
  intros Hbefore Helement. revert count entries.
  induction Hbefore as [|first r before processed Hr _ IH];
    intros count entries; simpl.
  - by rewrite Z.eqb_refl, Helement.
  - by rewrite Z.eqb_refl, Hr, bind_Ok, IH.
Qed.

Lemma pages_loop_error (total_count position : Z) (count : option Z)
  (entries : list R) (results : list (list E)) (before after : list E)
  (element : E) (processed : list R) (e : exn) :
  position <= page_index ->
  results !! Z.to_nat (page_index - position) =
    Some (before ++ element :: after) ->
  Forall2 (fun element r => process element = Ok r) before processed ->
  process element = Err e ->
  pages_loop process page_size page_index total_count position count entries
    results = Err e.
Proof.
  intros Hposition Hpage Hbefore Helement.
  revert total_count position count Hposition Hpage.
  induction results as [|first results IH];
    intros total_count position count Hposition Hpage; [done |].
  cbn [pages_loop].
  destruct (decide (position = page_index)) as [-> | Hne].
  - rewrite Z.sub_diag in Hpage. simpl in Hpage. injection Hpage as ->.
    by rewrite (page_loop_error _ _ _ _ _ _ _ Hbefore Helement).
  - rewrite page_loop_other by done. rewrite bind_Ok.
    apply IH; [lia |].
    replace (Z.to_nat (page_index - position))
      with (S (Z.to_nat (page_index - (position + 1)))) in Hpage by lia.
    done.
Qed.

Lemma process_page_cases (page : list E) :
  (exists processed,
     Forall2 (fun element r => process element = Ok r) page processed)
  \/ (exists before element after processed e,
        page = before ++ element :: after /\
        Forall2 (fun element r => process element = Ok r) before processed /\
        process element = Err e).
Proof.
  induction page as [|first page IH]; [left; by exists [] |].
  destruct (process first) as [r|e] eqn:Hfirst.
  - destruct IH as [[processed Hprocessed]
                   | (before & element & after & processed & e & -> & H & He)].
    + left. exists (r :: processed). by constructor.
    + right. exists (first :: before), element, after, (r :: processed), e.
      repeat split; [by constructor | done].
  - right. exists [], first, page, [], e. repeat split; [constructor | done].
Qed.

Lemma paginate_skipped (results : list (list E)) (final : list E) :
  last results = Some final ->
  page_index < 0 \/ Z.of_nat (length results) <= page_index ->
  paginate process page_size page_index results =
    Ok ((Z.of_nat (length results) - 1) * page_size + Z.of_nat (length final),
        []).
Proof.
  intros Hfinal Hindex. unfold paginate.
  rewrite pages_loop_other by lia. rewrite bind_Ok.
  unfold last_page_count. rewrite Hfinal. simpl. do 2 f_equal. lia.
Qed.

Lemma paginate_raises (results : list (list E)) (before after : list E)
  (element : E) (processed : list R) (e : exn) :
  0 <= page_index ->
  results !! Z.to_nat page_index = Some (before ++ element :: after) ->
  Forall2 (fun element r => process element = Ok r) before processed ->
  process element = Err e ->
  paginate process page_size page_index results = Err e.
Proof.
  intros Hindex Hpage Hbefore Helement. unfold paginate.
  by rewrite (pages_loop_error 0 0 None [] results before after element
                processed e);
    [| | rewrite Z.sub_0_r | |].
Qed.

Lemma paginate_ok (results : list (list E)) (total_count : Z)
  (entries : list R) :
  paginate process page_size page_index results = Ok (total_count, entries) ->
  exists final,
    last results = Some final /\
    total_count =
      (Z.of_nat (length results) - 1) * page_size + Z.of_nat (length final) /\
    ((entries = [] /\
      (page_index < 0 \/ Z.of_nat (length results) <= page_index))
     \/ (exists page,
           0 <= page_index /\
           results !! Z.to_nat page_index = Some page /\
           Forall2 (fun element r => process element = Ok r) page entries)).
Proof.
  intros Hok.
  destruct (last results) as [final|] eqn:Hfinal;
    [| apply last_None in Hfinal; by subst].
  exists final. split; [done |].
  destruct (decide (0 <= page_index < Z.of_nat (length results)))
    as [Hrange | Hrange].
  - destruct (lookup_lt_is_Some_2 results (Z.to_nat page_index))
      as [page Hpage]; [lia |].
    destruct (process_page_cases page)
      as [[processed Hprocessed]
         | (before & element & after & processed & e & -> & Hbefore & He)].
    + rewrite (paginate_total_and_entries process page_size page_index results
                 page final processed) in Hok by (done || lia).
      injection Hok as <- <-. split; [done |].
      right. exists page. repeat split; [lia | done | done].
    + by rewrite (paginate_raises _ _ _ _ _ _ (proj1 Hrange) Hpage Hbefore He)
        in Hok.
  - rewrite (paginate_skipped results final Hfinal) in Hok by lia.
    injection Hok as <- <-. split; [done |]. left. split; [done | lia].
Qed.

End PaginationErrors.

Lemma sum_sizes_bound {E} (page_size : Z) (results : list (list E))
  (final : list E) :
  last results = Some final ->
  (forall page, page ∈ results -> Z.of_nat (length page) <= page_size) ->
  sum_sizes results <=
    (Z.of_nat (length results) - 1) * page_size + Z.of_nat (length final).
Proof.
  revert final. induction results as [|first results IH];
    intros final Hfinal Hsizes; [done |].
  destruct results as [|next results].
  - injection Hfinal as ->. simpl. lia.
  - rewrite last_cons_cons in Hfinal. rewrite sum_sizes_cons.
    assert (Z.of_nat (length first) <= page_size) by (apply Hsizes; by left).
    assert (sum_sizes (next :: results) <=
              (Z.of_nat (length (next :: results)) - 1) * page_size
                + Z.of_nat (length final)) as Hrest.
    { apply IH; [done |]. intros page Hpage. apply Hsizes. by right. }
    cbn [length] in *. lia.
Qed.

(** X5. When the page index is negative or not below the number of pages
    of a non-empty stream, no entry is normalised and the result is the
    empty list with the total count [(N - 1) * page_size] plus the size of
    the last page: an index out of range is not an error. *)
Theorem paginate_out_of_range {E R} (process : E -> result R)
  (page_size page_index : Z) (results : list (list E)) (final : list E)
  (Hfinal : last results = Some final)
  (Hindex : page_index < 0 \/ Z.of_nat (length results) <= page_index) :
  paginate process page_size page_index results =
    Ok ((Z.of_nat (length results) - 1) * page_size + Z.of_nat (length final),
        []).
Proof. by apply paginate_skipped. Qed.

Lemma paginate_out_of_range_witness :
  paginate (fun _ : nat => @Err nat IndexError) 10 5 [[1; 2]; [3]]%nat =
    Ok (11, []).
Proof.
  apply (paginate_out_of_range (fun _ : nat => @Err nat IndexError) 10 5
           [[1; 2]; [3]]%nat [3]%nat); [reflexivity | right; simpl; lia].
Defined.

(** X6. When an entry of the requested page cannot be normalised, the
    search raises the exception of the first such entry; the entries already
    normalised and the running total are lost. *)
Theorem paginate_first_error {E R} (process : E -> result R)
  (page_size page_index : Z) (results : list (list E))
  (before after : list E) (element : E) (processed : list R) (e : exn)
  (Hindex : 0 <= page_index)
  (Hpage : results !! Z.to_nat page_index = Some (before ++ element :: after))
  (Hbefore : Forall2 (fun element r => process element = Ok r) before processed)
  (Helement : process element = Err e) :
  paginate process page_size page_index results = Err e.
Proof. by eapply paginate_raises. Qed.

Lemma paginate_first_error_witness :
  paginate
    (fun n : nat => if Nat.eqb n 0 then Err (KeyError "workbook_name") else Ok n)
    10 1 [[1; 2]; [3; 0; 4; 0]; [5]]%nat = Err (KeyError "workbook_name").
Proof.
  apply (paginate_first_error _ 10 1 [[1; 2]; [3; 0; 4; 0]; [5]]%nat
           [3]%nat [4; 0]%nat 0%nat [3]%nat);
    [lia | reflexivity | by repeat constructor | reflexivity].
Defined.

(** X7. A search that returns has visited at least one page; its total
    count is [(N - 1) * page_size] plus the size of the last page; its entries
    are the normalised elements of the requested page, in order, or none
    when the page index is out of range. *)
Theorem paginate_returns {E R} (process : E -> result R)
  (page_size page_index : Z) (results : list (list E)) (total_count : Z)
  (entries : list R)
  (Hok : paginate process page_size page_index results =
           Ok (total_count, entries)) :
  exists final,
    last results = Some final /\
    total_count =
      (Z.of_nat (length results) - 1) * page_size + Z.of_nat (length final) /\
    ((entries = [] /\
      (page_index < 0 \/ Z.of_nat (length results) <= page_index))
     \/ (exists page,
           0 <= page_index /\
           results !! Z.to_nat page_index = Some page /\
           Forall2 (fun element r => process element = Ok r) page entries)).
Proof. by apply paginate_ok. Qed.

Lemma paginate_returns_witness :
  exists final,
    last [[1; 2]; [3; 4]; [5]]%nat = Some final /\
    5 = (Z.of_nat (length [[1; 2]; [3; 4]; [5]]%nat) - 1) * 2
          + Z.of_nat (length final) /\
    (([3; 4]%nat = [] /\ (1 < 0 \/ Z.of_nat 3 <= 1))
     \/ (exists page,
           0 <= 1 /\
           [[1; 2]; [3; 4]; [5]]%nat !! Z.to_nat 1 = Some page /\
           Forall2 (fun element r => @Ok nat element = Ok r) page [3; 4]%nat)).
Proof.
  exact (paginate_returns (fun n : nat => Ok n) 2 1 [[1; 2]; [3; 4]; [5]]%nat
           5 [3; 4]%nat eq_refl).
Defined.

(** X8. When no page holds more than [page_size] entries, the total count
    of a search that returns is at least the number of entries of the whole
    stream and at most [N * page_size], and at most [page_size] entries are
    returned. *)
Theorem total_count_bounds {E R} (process : E -> result R)
  (page_size page_index : Z) (results : list (list E)) (total_count : Z)
  (entries : list R)
  (Hsizes : forall page,
      page ∈ results -> Z.of_nat (length page) <= page_size)
  (Hok : paginate process page_size page_index results =
           Ok (total_count, entries)) :
  sum_sizes results <= total_count <= Z.of_nat (length results) * page_size
  /\ Z.of_nat (length entries) <= page_size.
Proof.
  destruct (paginate_ok _ _ _ _ _ _ Hok) as (final & Hfinal & -> & Hentries).
  assert (final ∈ results) as Hin.
  { apply list_elem_of_lookup. exists (Nat.pred (length results)).
    by rewrite <- last_lookup. }
  pose proof (Hsizes final Hin) as Hlast.
  pose proof (sum_sizes_bound page_size results final Hfinal Hsizes).
  split; [lia |].
  destruct Hentries as [[-> _] | (page & _ & Hpage & Hforall)].
  - simpl. lia.
  - rewrite <- (Forall2_length _ _ _ Hforall).
    apply Hsizes. apply list_elem_of_lookup. by eexists.
Qed.

Lemma total_count_bounds_witness :
  sum_sizes [[1; 2]; [3]; [4; 5]]%nat <= 6
    <= Z.of_nat (length [[1; 2]; [3]; [4; 5]]%nat) * 2
  /\ Z.of_nat (length [1; 2]%nat) <= 2.
Proof.
  apply (total_count_bounds (fun n : nat => Ok n) 2 0
           [[1; 2]; [3]; [4; 5]]%nat 6 [1; 2]%nat); [| reflexivity].
  intros page Hpage. repeat (apply elem_of_cons in Hpage as [-> | Hpage]);
    [simpl; lia .. |]. by apply elem_of_nil in Hpage.
Defined.

(** ** Dispatch on the entry kind *)

Lemma process_resource_table (re_match : string -> string -> bool)
  (self : GCPDataCatalogProxy) (entry : SearchCatalogResult) :
  _process_resource re_match self entry (Some "table"%string) =
    (table ← _process_table_resource entry; Ok (TableResult table)).
Proof. reflexivity. Qed.

Lemma process_resource_workbook (re_match : string -> string -> bool)
  (self : GCPDataCatalogProxy) (entry : SearchCatalogResult) :
  _process_resource re_match self entry (Some "workbook"%string) =
    (dashboard ← _process_dashboard_resource re_match self entry;
     Ok (DashboardResult dashboard)).
Proof. reflexivity. Qed.

Lemma process_resource_unknown (re_match : string -> string -> bool)
  (self : GCPDataCatalogProxy) (entry : SearchCatalogResult)
  (entry_type : option string) :
  entry_type <> Some "table"%string -> entry_type <> Some "workbook"%string ->
  _process_resource re_match self entry entry_type =
    Err (NotImplementedError
           ("Entry of " +:+ default "None"%string entry_type
                        +:+ " type not implemented !")).
Proof.
  intros Htable Hworkbook. unfold _process_resource.
  by rewrite !decide_False by done.
Qed.

(** X9. For an entry kind other than [table] and [workbook], a search whose
    requested page holds at least one entry raises [NotImplementedError]
    naming the kind. *)
Theorem basic_search_unknown_kind (re_match : string -> string -> bool)
  (self : GCPDataCatalogProxy) (query_term : string) (page_index : Z)
  (entry_type : option string) (additional_filters : list (string * value))
  (results : list (list SearchCatalogResult)) (element : SearchCatalogResult)
  (page : list SearchCatalogResult)
  (Htable : entry_type <> Some "table"%string)
  (Hworkbook : entry_type <> Some "workbook"%string)
  (Hresults :
     search_catalog (client self)
       (build_query query_term entry_type additional_filters)
       (scope self) (page_size self) = Ok results)
  (Hindex : 0 <= page_index)
  (Hpage : results !! Z.to_nat page_index = Some (element :: page)) :
  _basic_search re_match self query_term page_index entry_type
    additional_filters =
    Err (NotImplementedError
           ("Entry of " +:+ default "None"%string entry_type
                        +:+ " type not implemented !")).
Proof.
  unfold _basic_search. rewrite Hresults, bind_Ok.
  apply (paginate_raises _ _ _ results [] page element []);
    [done | done | constructor |].
  by apply process_resource_unknown.
Qed.

Lemma basic_search_unknown_kind_witness :
  _basic_search no_match (proxy_returning [[bigquery_entry]]) "ann" 0
    (Some "user"%string) [] =
    Err (NotImplementedError "Entry of user type not implemented !").
Proof.
  apply (basic_search_unknown_kind no_match
           (proxy_returning [[bigquery_entry]]) "ann" 0 (Some "user"%string) []
           [[bigquery_entry]] bigquery_entry []);
    [discriminate | discriminate | reflexivity | lia | reflexivity].
Defined.

(** X10. A user search that returns holds no result: its container is the
    table container with an empty list. *)
Theorem user_search_has_no_results (re_match : string -> string -> bool)
  (self : GCPDataCatalogProxy) (query_term : string) (page_index : Z)
  (index : string) (container : SearchResult)
  (Hok : fetch_user_search_results re_match self query_term page_index index =
           Ok container) :
  exists total_results, container = SearchTableResult total_results [].
Proof.
  unfold fetch_user_search_results, _basic_search in Hok.
  destruct (search_catalog _ _ _ _) as [results|]; [| done].
  rewrite bind_Ok in Hok.
  destruct (paginate _ _ _ _) as [[total_results entries]|] eqn:Hpaginate;
    [| done].
  rewrite bind_Ok in Hok. injection Hok as <-.
  exists total_results. f_equal.
  destruct (paginate_ok _ _ _ _ _ _ Hpaginate)
    as (final & _ & _ & [[-> _] | (page & _ & _ & Hentries)]); [done |].
  destruct Hentries as [|element r page entries Hr _]; [done |].
  by rewrite process_resource_unknown in Hr.
Qed.

Lemma user_search_has_no_results_witness :
  exists total_results,
    SearchTableResult 0 [] = SearchTableResult total_results [].
Proof.
  exact (user_search_has_no_results no_match (proxy_returning [[]]) "ann" 0 ""
           (SearchTableResult 0 []) eq_refl).
Defined.

Lemma basic_search_ok (re_match : string -> string -> bool)
  (self : GCPDataCatalogProxy) (query_term : string) (page_index : Z)
  (entry_type : option string) (additional_filters : list (string * value))
  (total_count : Z) (entries : list NormalizedResult) :
  _basic_search re_match self query_term page_index entry_type
    additional_filters = Ok (total_count, entries) ->
  exists results,
    search_catalog (client self)
      (build_query query_term entry_type additional_filters)
      (scope self) (page_size self) = Ok results /\
    paginate (fun element => _process_resource re_match self element entry_type)
      (page_size self) page_index results = Ok (total_count, entries).
Proof.
  unfold _basic_search. intros Hok.
  destruct (search_catalog _ _ _ _) as [results|]; [| done].
  by exists results.
Qed.

(** X11. A table search that returns gives the table container of the
    pages found for the query [<term> AND type=table]: every result is a
    table, the normalisation of the element of the requested page at the
    same position. *)
Theorem table_search_results (re_match : string -> string -> bool)
  (self : GCPDataCatalogProxy) (query_term : string) (page_index : Z)
  (index : string) (container : SearchResult)
  (Hok : fetch_table_search_results re_match self query_term page_index index =
           Ok container) :
  exists pages total_results results,
    search_catalog (client self) (query_term +:+ " AND type=table")
      (scope self) (page_size self) = Ok pages /\
    container = SearchTableResult total_results results /\
    (results = [] \/
     exists page,
       pages !! Z.to_nat page_index = Some page /\
       Forall2
         (fun element r =>
            exists table,
              _process_table_resource element = Ok table /\
              r = TableResult table)
         page results).
Proof.
  unfold fetch_table_search_results in Hok.
  destruct (_basic_search _ _ _ _ _ _) as [[total_results results]|] eqn:Hsearch;
    [| done].
  rewrite bind_Ok in Hok. injection Hok as <-.
  destruct (basic_search_ok _ _ _ _ _ _ _ _ Hsearch) as (pages & Hpages & Hpaginate).
  exists pages, total_results, results. split; [exact Hpages |]. split; [done |].
  destruct (paginate_ok _ _ _ _ _ _ Hpaginate)
    as (final & _ & _ & [[-> _] | (page & _ & Hpage & Hentries)]); [by left |].
  right. exists page. split; [done |].
  eapply Forall2_impl; [exact Hentries |].
  intros element r Hr. cbv beta in Hr. rewrite process_resource_table in Hr.
  destruct (_process_table_resource element) as [table|]; [| done].
  exists table. split; [done |]. by injection Hr as <-.
Qed.

Lemma table_search_results_witness :
  exists pages total_results results,
    search_catalog (client (proxy_returning [[bigquery_entry]]))
      ("orders" +:+ " AND type=table")
      (scope (proxy_returning [[bigquery_entry]]))
      (page_size (proxy_returning [[bigquery_entry]])) = Ok pages /\
    SearchTableResult 1 [TableResult bigquery_table] =
      SearchTableResult total_results results /\
    (results = [] \/
     exists page,
       pages !! Z.to_nat 0 = Some page /\
       Forall2
         (fun element r =>
            exists table,
              _process_table_resource element = Ok table /\
              r = TableResult table)
         page results).
Proof.
  exact (table_search_results no_match (proxy_returning [[bigquery_entry]])
           "orders" 0 "" (SearchTableResult 1 [TableResult bigquery_table])
           eq_refl).
Defined.

(** ** The index of a filtered search *)

Lemma index_kind (kind rest : string) :
  count_sep "_" kind = O ->
  getitem (PyStr.split "_" (kind +:+ "_" +:+ rest)) 0 = Ok kind.
Proof.
  intros Hkind.
  change (kind +:+ "_" +:+ rest) with (kind +:+ String "_" rest).
  by rewrite split_app_sep.
Qed.

Lemma filtered_search_kind (re_match : string -> string -> bool)
  (self : GCPDataCatalogProxy) (query_term : string)
  (search_request : gmap string (gmap string value)) (page_index : Z)
  (index entry_type : string) :
  getitem (PyStr.split "_" index) 0 = Ok entry_type ->
  fetch_search_results_with_filter re_match self query_term search_request
    page_index index =
    ('(approx_count, tables) ←
       _basic_search re_match self query_term page_index (Some entry_type)
         (translate_filters (default ∅ (search_request !! "filters"%string)));
     Ok (SearchTableResult approx_count tables)).
Proof.
  intros Hkind. unfold fetch_search_results_with_filter.
  by rewrite Hkind, bind_Ok.
Qed.

(** X12. The entry kind of a filtered search is the index up to its first
    ['_'], or the whole index when it has none; what follows the first ['_']
    has no effect on the search. *)
Theorem filtered_search_index_kind (re_match : string -> string -> bool)
  (self : GCPDataCatalogProxy) (query_term : string)
  (search_request : gmap string (gmap string value)) (page_index : Z)
  (kind rest : string) (Hkind : count_sep "_" kind = O) :
  fetch_search_results_with_filter re_match self query_term search_request
    page_index (kind +:+ "_" +:+ rest) =
  fetch_search_results_with_filter re_match self query_term search_request
    page_index kind
  /\ fetch_search_results_with_filter re_match self query_term search_request
       page_index kind =
     ('(approx_count, tables) ←
        _basic_search re_match self query_term page_index (Some kind)
          (translate_filters (default ∅ (search_request !! "filters"%string)));
      Ok (SearchTableResult approx_count tables)).
Proof.
  rewrite (filtered_search_kind _ _ _ _ _ _ kind (index_kind kind rest Hkind)).
  rewrite (filtered_search_kind _ _ _ _ _ kind kind); [done |].
  unfold getitem. by rewrite (split_no_sep "_" kind Hkind).
Qed.

Lemma filtered_search_index_kind_witness :
  fetch_search_results_with_filter no_match echo_proxy "orders" ∅ 0
    "table_search_index" =
  fetch_search_results_with_filter no_match echo_proxy "orders" ∅ 0 "table".
Proof.
  exact (proj1 (filtered_search_index_kind no_match echo_proxy "orders" ∅ 0
                  "table" "search_index" eq_refl)).
Defined.

(** X13. A filtered search on an index whose kind is neither [table] nor
    [workbook], such as [dashboard_search_index], raises
    [NotImplementedError] as soon as the requested page holds an entry. *)
Theorem filtered_search_unknown_kind (re_match : string -> string -> bool)
  (self : GCPDataCatalogProxy) (query_term : string)
  (search_request : gmap string (gmap string value)) (page_index : Z)
  (kind rest : string) (results : list (list SearchCatalogResult))
  (element : SearchCatalogResult) (page : list SearchCatalogResult)
  (Hkind : count_sep "_" kind = O)
  (Htable : kind <> "table"%string) (Hworkbook : kind <> "workbook"%string)
  (Hresults :
     search_catalog (client self)
       (build_query query_term (Some kind)
          (translate_filters (default ∅ (search_request !! "filters"%string))))
       (scope self) (page_size self) = Ok results)
  (Hindex : 0 <= page_index)
  (Hpage : results !! Z.to_nat page_index = Some (element :: page)) :
  fetch_search_results_with_filter re_match self query_term search_request
    page_index (kind +:+ "_" +:+ rest) =
    Err (NotImplementedError
           ("Entry of " +:+ kind +:+ " type not implemented !")).
Proof.
  rewrite (filtered_search_kind _ _ _ _ _ _ kind (index_kind kind rest Hkind)).
  unfold _basic_search. rewrite Hresults, bind_Ok.
  rewrite (paginate_raises _ _ _ results [] page element []
             (NotImplementedError
                ("Entry of " +:+ kind +:+ " type not implemented !"))
             Hindex Hpage);
    [done | constructor |].
  apply process_resource_unknown; congruence.
Qed.

Lemma filtered_search_unknown_kind_witness :
  fetch_search_results_with_filter no_match
    (proxy_returning [[bigquery_entry]]) "sales" ∅ 0 "dashboard_search_index" =
    Err (NotImplementedError "Entry of dashboard type not implemented !").
Proof.
  apply (filtered_search_unknown_kind no_match
           (proxy_returning [[bigquery_entry]]) "sales" ∅ 0
           "dashboard" "search_index" [[bigquery_entry]] bigquery_entry []);
    [reflexivity | discriminate | discriminate | reflexivity | lia
    | reflexivity].
Defined.

(** ** Faults of the backend *)

(** X14. When the catalog search raises, each of the four searches raises
    the same exception: nothing is caught and nothing is retried. *)
Theorem backend_fault_propagates (re_match : string -> string -> bool)
  (self : GCPDataCatalogProxy) (e : exn) (query_term : string)
  (search_request : gmap string (gmap string value)) (page_index : Z)
  (index : string)
  (Hfault : forall query,
      search_catalog (client self) query (scope self) (page_size self) = Err e) :
  fetch_table_search_results re_match self query_term page_index index = Err e
  /\ fetch_user_search_results re_match self query_term page_index index = Err e
  /\ fetch_dashboard_search_results re_match self query_term page_index index
     = Err e
  /\ fetch_search_results_with_filter re_match self query_term search_request
       page_index index = Err e.
Proof.
  repeat split.
  - unfold fetch_table_search_results, _basic_search. by rewrite Hfault.
  - unfold fetch_user_search_results, _basic_search. by rewrite Hfault.
  - unfold fetch_dashboard_search_results, _basic_search. by rewrite Hfault.
  - destruct (split_index_head index) as [entry_type Hkind].
    rewrite (filtered_search_kind _ _ _ _ _ _ _ Hkind).
    unfold _basic_search. by rewrite Hfault.
Qed.

Lemma backend_fault_propagates_witness :
  fetch_dashboard_search_results no_match unavailable_proxy "sales" 0 "" =
    Err (GoogleAPICallError "503 unavailable").
Proof.
  exact (proj1 (proj2 (proj2
           (backend_fault_propagates no_match unavailable_proxy
              (GoogleAPICallError "503 unavailable") "sales" ∅ 0 ""
              (fun _ => eq_refl))))).
Defined.

(** ** Normalised tables *)

Lemma getitem_range {A} (parts : list A) (i : Z) (a : A) :
  getitem parts i = Ok a ->
  - Z.of_nat (length parts) <= i < Z.of_nat (length parts).
Proof.
  unfold getitem, PyStr.index.
  destruct (Z.leb_spec 0 i), (Z.ltb_spec i (Z.of_nat (length parts))),
    (Z.leb_spec (- Z.of_nat (length parts)) i), (Z.ltb_spec i 0);
    simpl; intros Hget; try done; lia.
Qed.

Lemma getitem_nat {A} (parts : list A) (i : nat) (a : A) :
  getitem parts (Z.of_nat i) = Ok a -> parts !! i = Some a.
Proof.
  intros Hget. pose proof (getitem_range _ _ _ Hget) as Hrange.
  unfold getitem, PyStr.index in Hget.
  destruct (Z.leb_spec 0 (Z.of_nat i)); [| lia].
  destruct (Z.ltb_spec (Z.of_nat i) (Z.of_nat (length parts))); [| lia].
  simpl in Hget. rewrite Nat2Z.id in Hget.
  destruct (parts !! i); [| done]. by injection Hget as ->.
Qed.

Lemma getitem_last {A} (parts : list A) (a : A) :
  getitem parts (-1) = Ok a -> last parts = Some a.
Proof.
  intros Hget. pose proof (getitem_range _ _ _ Hget) as Hrange.
  unfold getitem, PyStr.index in Hget. simpl in Hget.
  destruct (Z.leb_spec (- Z.of_nat (length parts)) (-1)); [| lia].
  simpl in Hget. rewrite last_lookup.
  replace (Z.to_nat (Z.of_nat (length parts) + -1))
    with (Nat.pred (length parts)) in Hget by lia.
  destruct (parts !! Nat.pred (length parts)); [| done].
  by injection Hget as ->.
Qed.

Lemma split_fields_no_sep (sep : ascii) (s field : string) :
  field ∈ PyStr.split sep s -> count_sep sep field = O.
Proof.
  revert field. induction s as [|c s IH]; intros field.
  - intros ->%list_elem_of_singleton. done.
  - rewrite split_cons.
    destruct (Ascii.eqb c sep) eqn:Hc.
    + intros [-> | Hin]%elem_of_cons; [done | by apply IH].
    + destruct (PyStr.split sep s) as [|first fields]; [by intros ?%elem_of_nil |].
      intros [-> | Hin]%elem_of_cons.
      * simpl. rewrite Hc. apply IH. by left.
      * apply IH. by right.
Qed.

Lemma process_table_str (entry : SearchCatalogResult) (s : string) :
  resolved_system entry = SystemStr s ->
  _process_table_resource entry =
    (name ← getitem (PyStr.split "/" (linked_resource entry)) (-1);
     last ← getitem (PyStr.split "/" (relative_resource_name entry)) (-1);
     part1 ← getitem (PyStr.split "/" (relative_resource_name entry)) 1;
     part3 ← getitem (PyStr.split "/" (relative_resource_name entry)) 3;
     Ok {| Table.database := s;
           Table.cluster := part1 +:+ "__" +:+ part3;
           Table.schema := PyStr.strip "_" (PyStr.replace name "" last);
           Table.name := name;
           Table.tags := [];
           Table.badges := [];
           Table.last_updated_timestamp := None;
           Table.column_names := [];
           Table.key := relative_resource_name entry |}).
Proof.
  unfold resolved_system, _process_table_resource. intros ->.
  destruct (getitem (PyStr.split "/" (linked_resource entry)) (-1));
    [rewrite !bind_Ok | done].
  by destruct (getitem (PyStr.split "/" (relative_resource_name entry)) (-1)).
Qed.

Lemma split_nonempty (sep : ascii) (s : string) :
  (1 <= length (PyStr.split sep s))%nat.
Proof. rewrite split_length. lia. Qed.

(** X15. A table entry is normalised exactly when its relative resource
    name has at least four segments and its system is either a string, or
    the integer 1 with a linked resource of at least three segments. *)
Theorem table_normalization_succeeds_iff (entry : SearchCatalogResult) :
  (exists table, _process_table_resource entry = Ok table) <->
  (4 <= length (PyStr.split "/" (relative_resource_name entry)))%nat /\
  match resolved_system entry with
  | SystemInt n =>
      n = 1 /\ (3 <= length (PyStr.split "/" (linked_resource entry)))%nat
  | SystemStr _ => True
  end.
Proof.
  pose proof (split_nonempty "/" (linked_resource entry)) as Hlinked.
  pose proof (split_nonempty "/" (relative_resource_name entry)) as Hrelative.
  destruct (getitem_in_range (PyStr.split "/" (linked_resource entry)) (-1))
    as [name Hname]; [lia |].
  destruct (getitem_in_range
              (PyStr.split "/" (relative_resource_name entry)) (-1))
    as [final Hfinal]; [lia |].
  destruct (resolved_system entry) as [n|s] eqn:Hsystem.
  - rewrite (process_table_int entry n Hsystem), Hname, bind_Ok. split.
    + intros [table Htable].
      destruct (getitem _ (-3)) as [schema|] eqn:Hschema; [| done].
      destruct (getitem _ 1) as [part1|] eqn:Hpart1; [| done].
      destruct (getitem _ 3) as [part3|] eqn:Hpart3; [| done].
      rewrite !bind_Ok in Htable.
      apply getitem_range in Hschema, Hpart3.
      destruct (Z.eqb_spec n 1); [lia | done].
    + intros (Hfour & -> & Hthree).
      destruct (getitem_in_range (PyStr.split "/" (linked_resource entry)) (-3))
        as [schema ->]; [lia |].
      destruct (getitem_in_range
                  (PyStr.split "/" (relative_resource_name entry)) 1)
        as [part1 ->]; [lia |].
      destruct (getitem_in_range
                  (PyStr.split "/" (relative_resource_name entry)) 3)
        as [part3 ->]; [lia |].
      by eexists.
  - rewrite (process_table_str entry s Hsystem), Hname, Hfinal, !bind_Ok. split.
    + intros [table Htable].
      destruct (getitem _ 1) as [part1|] eqn:Hpart1; [| done].
      destruct (getitem _ 3) as [part3|] eqn:Hpart3; [| done].
      apply getitem_range in Hpart3. lia.
    + intros [Hfour _].
      destruct (getitem_in_range
                  (PyStr.split "/" (relative_resource_name entry)) 1)
        as [part1 ->]; [lia |].
      destruct (getitem_in_range
                  (PyStr.split "/" (relative_resource_name entry)) 3)
        as [part3 ->]; [lia |].
      by eexists.
Qed.

Lemma process_table_inv (entry : SearchCatalogResult) (table : Table.Table) :
  _process_table_resource entry = Ok table ->
  exists name part1 part3,
    getitem (PyStr.split "/" (linked_resource entry)) (-1) = Ok name /\
    getitem (PyStr.split "/" (relative_resource_name entry)) 1 = Ok part1 /\
    getitem (PyStr.split "/" (relative_resource_name entry)) 3 = Ok part3 /\
    Table.name table = name /\
    Table.cluster table = part1 +:+ "__" +:+ part3 /\
    Table.key table = relative_resource_name entry /\
    Table.database table =
      match resolved_system entry with
      | SystemInt _ => "bigquery"%string
      | SystemStr s => s
      end.
Proof.
  intros Hok. destruct (resolved_system entry) as [n|s] eqn:Hsystem.
  - rewrite (process_table_int entry n Hsystem) in Hok.
    destruct (getitem _ (-1)) as [name|]; [| done].
    destruct (getitem _ (-3)) as [schema|]; [| done].
    destruct (getitem _ 1) as [part1|]; [| done].
    destruct (getitem _ 3) as [part3|]; [| done].
    rewrite !bind_Ok in Hok.
    destruct (n =? 1); [| done].
    injection Hok as <-. by exists name, part1, part3.
  - rewrite (process_table_str entry s Hsystem) in Hok.
    destruct (getitem (PyStr.split "/" (linked_resource entry)) (-1))
      as [name|]; [| done].
    destruct (getitem (PyStr.split "/" (relative_resource_name entry)) (-1))
      as [final|]; [| done].
    destruct (getitem _ 1) as [part1|]; [| done].
    destruct (getitem _ 3) as [part3|]; [| done].
    rewrite !bind_Ok in Hok.
    injection Hok as <-. by exists name, part1, part3.
Qed.

(** X16. In a normalised table the key is the relative resource name of
    the entry, the name is the last segment of its linked resource and holds
    no ['/'], and the database is the system when it is a string and
    ["bigquery"] when it is an integer. *)
Theorem table_fields (entry : SearchCatalogResult) (table : Table.Table)
  (Hok : _process_table_resource entry = Ok table) :
  Table.key table = relative_resource_name entry
  /\ last (PyStr.split "/" (linked_resource entry)) = Some (Table.name table)
  /\ count_sep "/" (Table.name table) = O
  /\ Table.database table =
       match resolved_system entry with
       | SystemInt _ => "bigquery"%string
       | SystemStr s => s
       end.
Proof.
  destruct (process_table_inv entry table Hok)
    as (name & part1 & part3 & Hname & _ & _ & <- & _ & Hkey & Hdatabase).
  pose proof (getitem_last _ _ Hname) as Hlast.
  repeat split; [done | done | | done].
  apply (split_fields_no_sep "/" (linked_resource entry)).
  apply list_elem_of_lookup.
  exists (Nat.pred (length (PyStr.split "/" (linked_resource entry)))).
  by rewrite <- last_lookup.
Qed.

Lemma table_fields_witness :
  Table.key bigquery_table = relative_resource_name bigquery_entry
  /\ last (PyStr.split "/" (linked_resource bigquery_entry)) =
       Some (Table.name bigquery_table)
  /\ count_sep "/" (Table.name bigquery_table) = O
  /\ Table.database bigquery_table =
       match resolved_system bigquery_entry with
       | SystemInt _ => "bigquery"%string
       | SystemStr s => s
       end.
Proof. exact (table_fields bigquery_entry bigquery_table eq_refl). Defined.

(** X17. When the relative resource name is
    [<s0>/<s1>/<s2>/<s3>/<rest>], as Data Catalog names
    [projects/<project>/locations/<location>/...] are, the cluster of the
    normalised table is [<s1>__<s3>]. *)
Theorem table_cluster (entry : SearchCatalogResult) (table : Table.Table)
  (s0 s1 s2 s3 rest : string)
  (Hname : relative_resource_name entry =
             s0 +:+ "/" +:+ s1 +:+ "/" +:+ s2 +:+ "/" +:+ s3 +:+ "/" +:+ rest)
  (H0 : count_sep "/" s0 = O) (H1 : count_sep "/" s1 = O)
  (H2 : count_sep "/" s2 = O) (H3 : count_sep "/" s3 = O)
  (Hok : _process_table_resource entry = Ok table) :
  Table.cluster table = s1 +:+ "__" +:+ s3.
Proof.
  destruct (process_table_inv entry table Hok)
    as (name & part1 & part3 & _ & Hpart1 & Hpart3 & _ & -> & _).
  rewrite Hname in Hpart1, Hpart3.
  change (s0 +:+ "/" +:+ s1 +:+ "/" +:+ s2 +:+ "/" +:+ s3 +:+ "/" +:+ rest)
    with (s0 +:+ String "/" (s1 +:+ String "/" (s2 +:+ String "/"
            (s3 +:+ String "/" rest)))) in Hpart1, Hpart3.
  rewrite !split_app_sep in Hpart1, Hpart3 by done.
  apply (getitem_nat _ 1) in Hpart1. apply (getitem_nat _ 3) in Hpart3.
  simpl in Hpart1, Hpart3. by injection Hpart1 as <-; injection Hpart3 as <-.
Qed.

Lemma table_cluster_witness :
  Table.cluster bigquery_table = "p1__US"%string.
Proof.
  exact (table_cluster bigquery_entry bigquery_table "projects" "p1"
           "locations" "US" "entryGroups/@bigquery/entries/e1"
           eq_refl eq_refl eq_refl eq_refl eq_refl eq_refl).
Defined.

Lemma lstrip_clean (chars s : string) :
  PyStr.lstrip chars s = EmptyString \/
  starts_clean chars (PyStr.lstrip chars s) = true.
Proof.
  induction s as [|c s IH]; [by left |].
  simpl. destruct (PyStr.mem c chars) eqn:Hc; [done |].
  right. simpl. by rewrite Hc.
Qed.

Lemma rstrip_clean (chars s : string) :
  PyStr.rstrip chars s = EmptyString \/
  ends_clean chars (PyStr.rstrip chars s) = true.
Proof.
  induction s as [|c s IH]; [by left |].
  simpl. destruct (PyStr.rstrip chars s) as [|d r] eqn:Hr.
  - destruct (PyStr.mem c chars) eqn:Hc; [by left |].
    right. simpl. by rewrite Hc.
  - right. destruct IH as [? | IH]; [done |]. exact IH.
Qed.

Lemma rstrip_starts_clean (chars s : string) :
  starts_clean chars s = true ->
  starts_clean chars (PyStr.rstrip chars s) = true.
Proof.
  destruct s as [|c s]; [done |]. simpl.
  destruct (PyStr.mem c chars) eqn:Hc; [done |]. intros _.
  destruct (PyStr.rstrip chars s); simpl; by rewrite Hc.
Qed.

Lemma strip_clean (chars s : string) :
  PyStr.strip chars s = EmptyString \/
  (starts_clean chars (PyStr.strip chars s) = true /\
   ends_clean chars (PyStr.strip chars s) = true).
Proof.
  unfold PyStr.strip.
  destruct (rstrip_clean chars (PyStr.lstrip chars s)) as [? | Hend];
    [by left |].
  destruct (lstrip_clean chars s) as [Hempty | Hstart].
  - left. by rewrite Hempty.
  - right. split; [by apply rstrip_starts_clean | done].
Qed.

(** X18. The schema of a normalised table is the third segment from the
    end of the linked resource when the system is an integer; when it is a
    string, the schema is the last segment of the relative resource name
    with the table name removed and the underscores trimmed, so that it
    neither starts nor ends with ['_']. *)
Theorem table_schema (entry : SearchCatalogResult) (table : Table.Table)
  (Hok : _process_table_resource entry = Ok table) :
  match resolved_system entry with
  | SystemInt _ =>
      getitem (PyStr.split "/" (linked_resource entry)) (-3) =
        Ok (Table.schema table)
  | SystemStr _ =>
      exists final,
        last (PyStr.split "/" (relative_resource_name entry)) = Some final /\
        Table.schema table =
          PyStr.strip "_" (PyStr.replace (Table.name table) "" final) /\
        (Table.schema table = EmptyString \/
         (starts_clean "_" (Table.schema table) = true /\
          ends_clean "_" (Table.schema table) = true))
  end.
Proof.
  destruct (resolved_system entry) as [n|s] eqn:Hsystem.
  - rewrite (process_table_int entry n Hsystem) in Hok.
    destruct (getitem _ (-1)) as [name|]; [| done].
    destruct (getitem _ (-3)) as [schema|]; [| done].
    destruct (getitem _ 1) as [part1|]; [| done].
    destruct (getitem _ 3) as [part3|]; [| done].
    rewrite !bind_Ok in Hok.
    destruct (n =? 1); [| done]. by injection Hok as <-.
  - rewrite (process_table_str entry s Hsystem) in Hok.
    destruct (getitem (PyStr.split "/" (linked_resource entry)) (-1))
      as [name|]; [| done].
    destruct (getitem (PyStr.split "/" (relative_resource_name entry)) (-1))
      as [final|] eqn:Hfinal; [| done].
    destruct (getitem _ 1) as [part1|]; [| done].
    destruct (getitem _ 3) as [part3|]; [| done].
    rewrite !bind_Ok in Hok. injection Hok as <-.
    exists final. split; [by apply getitem_last |]. split; [done |].
    apply strip_clean.
Qed.

Lemma table_schema_witness :
  getitem (PyStr.split "/" (linked_resource bigquery_entry)) (-3) =
    Ok (Table.schema bigquery_table).
Proof. exact (table_schema bigquery_entry bigquery_table eq_refl). Defined.

(** ** Tag metadata and dashboards *)

Lemma foldl_insert_lookup (l : list (string * string))
  (result : gmap string string) (k : string) :
  foldl (fun result '(k, v) => <[k := v]> result) result l !! k =
    match last_value k l with
    | Some v => Some v
    | None => result !! k
    end.
Proof.
  revert result. induction l as [|[k' v] l IH]; intros result; [done |].
  cbn [foldl last_value]. rewrite IH.
  destruct (last_value k l); [done |].
  destruct (String.eqb_spec k' k) as [-> | Hne].
  - by rewrite lookup_insert_eq.
  - by rewrite lookup_insert_ne.
Qed.

Lemma metadata_foldl (re_match : string -> string -> bool) (regex : string)
  (tags : list Tag) (result : gmap string string) :
  foldl
    (fun result tag =>
       if re_match regex (template_display_name tag)
       then foldl (fun result '(k, v) => <[k := v]> result) result (fields tag)
       else result)
    result tags =
  foldl (fun result '(k, v) => <[k := v]> result) result
    (matching_fields re_match regex tags).
Proof.
  revert result. induction tags as [|tag tags IH]; intros result; [done |].
  unfold matching_fields. cbn [foldl mbind list_bind].
  rewrite foldl_app. rewrite IH.
  by destruct (re_match regex (template_display_name tag)).
Qed.

Lemma metadata_lookup (re_match : string -> string -> bool)
  (self : GCPDataCatalogProxy) (resource_link regex : string)
  (tags : list Tag) :
  list_tags (client self) resource_link = Ok tags ->
  exists metadata,
    _get_resource_metadata re_match self resource_link regex = Ok metadata /\
    forall k,
      metadata !! k = last_value k (matching_fields re_match regex tags).
Proof.
  intros Htags. unfold _get_resource_metadata. rewrite Htags, bind_Ok.
  eexists. split; [reflexivity |]. intros k.
  rewrite metadata_foldl, foldl_insert_lookup, lookup_empty.
  by destruct (last_value k _).
Qed.

(** X19. The metadata of a resource maps each key to the value it has in
    the last field with that key among the tags whose display name matches
    the pattern; a key that no matching tag holds is absent, and tags that
    do not match contribute nothing. *)
Theorem resource_metadata_last_wins (re_match : string -> string -> bool)
  (self : GCPDataCatalogProxy) (resource_link regex : string)
  (tags : list Tag)
  (Htags : list_tags (client self) resource_link = Ok tags) :
  exists metadata,
    _get_resource_metadata re_match self resource_link regex = Ok metadata /\
    forall k,
      metadata !! k = last_value k (matching_fields re_match regex tags).
Proof. by apply metadata_lookup. Qed.

Lemma resource_metadata_last_wins_witness :
  exists metadata,
    _get_resource_metadata ends_with_dashboard_metadata workbook_proxy "w1"
      ".*Dashboard Metadata$" = Ok metadata /\
    forall k,
      metadata !! k =
        last_value k
          [("workbook_name", "Draft"); ("site_name", "finance");
           ("workbook_entry", "uri://x"); ("workbook_name", "Sales")]%string.
Proof.
  exact (resource_metadata_last_wins ends_with_dashboard_metadata
           workbook_proxy "w1" ".*Dashboard Metadata$" _ eq_refl).
Defined.

Lemma getitem_lookup {A} (parts : list A) (i : nat) (a : A) :
  parts !! i = Some a -> getitem parts (Z.of_nat i) = Ok a.
Proof.
  intros Hlookup. pose proof (lookup_lt_Some _ _ _ Hlookup) as Hlt.
  unfold getitem, PyStr.index.
  destruct (Z.leb_spec 0 (Z.of_nat i)); [| lia].
  destruct (Z.ltb_spec (Z.of_nat i) (Z.of_nat (length parts))); [| lia].
  simpl. by rewrite Nat2Z.id, Hlookup.
Qed.

Lemma dict_getitem_last_value (metadata : gmap string string)
  (l : list (string * string)) (k : string) :
  (forall k, metadata !! k = last_value k l) ->
  dict_getitem metadata k =
    match last_value k l with
    | Some v => Ok v
    | None => Err (KeyError k)
    end.
Proof. intros Hmetadata. unfold dict_getitem. by rewrite Hmetadata. Qed.

(** X20. A workbook entry whose full entry is fetched, whose name has a
    second segment and whose matching tags hold [workbook_name] and
    [workbook_entry] is normalised to the dashboard with the last values of
    these two fields as name and URI, the second segment of the full name as
    cluster, the last [site_name] (if any) as group, the entry's system as
    product, empty URLs and a zero timestamp. *)
Theorem dashboard_normalization (re_match : string -> string -> bool)
  (self : GCPDataCatalogProxy) (entry : SearchCatalogResult)
  (full_entry : Entry.Entry) (tags : list Tag) (cluster name uri : string)
  (Hentry :
     get_entry (client self) (relative_resource_name entry) = Ok full_entry)
  (Htags : list_tags (client self) (Entry.name full_entry) = Ok tags)
  (Hcluster : PyStr.split "/" (Entry.name full_entry) !! 1%nat = Some cluster)
  (Hname :
     last_value "workbook_name"
       (matching_fields re_match ".*Dashboard Metadata$" tags) = Some name)
  (Huri :
     last_value "workbook_entry"
       (matching_fields re_match ".*Dashboard Metadata$" tags) = Some uri) :
  _process_dashboard_resource re_match self entry =
    Ok {| Dashboard.cluster := cluster;
          Dashboard.group_name :=
            last_value "site_name"
              (matching_fields re_match ".*Dashboard Metadata$" tags);
          Dashboard.group_url := "";
          Dashboard.url := "";
          Dashboard.product := resolved_system entry;
          Dashboard.name := name;
          Dashboard.last_successful_run_timestamp := 0;
          Dashboard.uri := uri |}.
Proof.
  unfold _process_dashboard_resource. rewrite Hentry, bind_Ok.
  destruct (metadata_lookup re_match self (Entry.name full_entry)
              ".*Dashboard Metadata$" tags Htags) as (metadata & -> & Hlookup).
  rewrite bind_Ok.
  pose proof (getitem_lookup _ 1 _ Hcluster) as Hget.
  change (Z.of_nat 1) with 1 in Hget. rewrite Hget, bind_Ok.
  rewrite !(dict_getitem_last_value _ _ _ Hlookup), Hname, Huri, !bind_Ok.
  by rewrite Hlookup.
Qed.

Lemma dashboard_normalization_witness :
  _process_dashboard_resource ends_with_dashboard_metadata workbook_proxy
    workbook_entry =
    Ok {| Dashboard.cluster := "p1";
          Dashboard.group_name := Some "finance"%string;
          Dashboard.group_url := "";
          Dashboard.url := "";
          Dashboard.product := SystemStr "tableau";
          Dashboard.name := "Sales";
          Dashboard.last_successful_run_timestamp := 0;
          Dashboard.uri := "uri://x" |}.
Proof.
  exact (dashboard_normalization ends_with_dashboard_metadata workbook_proxy
           workbook_entry
           {| Entry.name := relative_resource_name workbook_entry |}
           _ "p1" "Sales" "uri://x" eq_refl eq_refl eq_refl eq_refl eq_refl).
Defined.

(** X21. When the matching tags of a fetched workbook whose name has a
    second segment lack [workbook_name], normalisation raises [KeyError] on
    it; when they hold it but lack [workbook_entry], it raises [KeyError] on
    that one. A workbook without any matching tag is therefore never
    normalised. *)
Theorem dashboard_missing_metadata (re_match : string -> string -> bool)
  (self : GCPDataCatalogProxy) (entry : SearchCatalogResult)
  (full_entry : Entry.Entry) (tags : list Tag) (cluster : string)
  (Hentry :
     get_entry (client self) (relative_resource_name entry) = Ok full_entry)
  (Htags : list_tags (client self) (Entry.name full_entry) = Ok tags)
  (Hcluster : PyStr.split "/" (Entry.name full_entry) !! 1%nat = Some cluster)
  (Hmissing :
     last_value "workbook_name"
       (matching_fields re_match ".*Dashboard Metadata$" tags) = None
     \/ last_value "workbook_entry"
          (matching_fields re_match ".*Dashboard Metadata$" tags) = None) :
  _process_dashboard_resource re_match self entry =
    Err (KeyError
           (match last_value "workbook_name"
                    (matching_fields re_match ".*Dashboard Metadata$" tags)
            with
            | Some _ => "workbook_entry"
            | None => "workbook_name"
            end)).
Proof.
  unfold _process_dashboard_resource. rewrite Hentry, bind_Ok.
  destruct (metadata_lookup re_match self (Entry.name full_entry)
              ".*Dashboard Metadata$" tags Htags) as (metadata & -> & Hlookup).
  rewrite bind_Ok.
  pose proof (getitem_lookup _ 1 _ Hcluster) as Hget.
  change (Z.of_nat 1) with 1 in Hget. rewrite Hget, bind_Ok.
  rewrite !(dict_getitem_last_value _ _ _ Hlookup).
  destruct (last_value "workbook_name" _) as [name|]; [| done].
  rewrite bind_Ok. by destruct Hmissing as [? | ->].
Qed.

Lemma dashboard_missing_metadata_witness :
  _process_dashboard_resource no_match workbook_proxy workbook_entry =
    Err (KeyError "workbook_name").
Proof.
  exact (dashboard_missing_metadata no_match workbook_proxy workbook_entry
           {| Entry.name := relative_resource_name workbook_entry |}
           _ "p1" eq_refl eq_refl eq_refl (or_introl eq_refl)).
Defined.

(** X22. A dashboard search that returns gives the dashboard container of
    the pages found for the query [<term> AND type=workbook]: its results
    are the dashboards the elements of the requested page are normalised
    to, position by position; they are empty only when that page is empty or
    the page index is out of range. *)
Theorem dashboard_search_results (re_match : string -> string -> bool)
  (self : GCPDataCatalogProxy) (query_term : string) (page_index : Z)
  (index : string) (container : SearchResult)
  (Hok :
     fetch_dashboard_search_results re_match self query_term page_index index =
       Ok container) :
  exists pages total_results results,
    search_catalog (client self) (query_term +:+ " AND type=workbook")
      (scope self) (page_size self) = Ok pages /\
    container = SearchDashboardResult total_results results /\
    ((results = [] /\
      (page_index < 0 \/ Z.of_nat (length pages) <= page_index))
     \/ (exists page,
           0 <= page_index /\
           pages !! Z.to_nat page_index = Some page /\
           Forall2
             (fun element r =>
                exists dashboard,
                  _process_dashboard_resource re_match self element =
                    Ok dashboard
                  /\ r = DashboardResult dashboard)
             page results)).
Proof.
  unfold fetch_dashboard_search_results in Hok.
  destruct (_basic_search _ _ _ _ _ _) as [[total_results results]|] eqn:Hsearch;
    [| done].
  rewrite bind_Ok in Hok. injection Hok as <-.
  destruct (basic_search_ok _ _ _ _ _ _ _ _ Hsearch)
    as (pages & Hpages & Hpaginate).
  exists pages, total_results, results. split; [exact Hpages |]. split; [done |].
  destruct (paginate_ok _ _ _ _ _ _ Hpaginate)
    as (final & _ & _ & [[-> Hrange] | (page & Hindex & Hpage & Hentries)]);
    [by left |].
  right. exists page. split; [done |]. split; [done |].
  eapply Forall2_impl; [exact Hentries |].
  intros element r Hr. cbv beta in Hr. rewrite process_resource_workbook in Hr.
  destruct (_process_dashboard_resource re_match self element)
    as [dashboard|]; [| done].
  exists dashboard. split; [done |]. by injection Hr as <-.
Qed.

Lemma dashboard_search_results_witness :
  exists pages total_results results,
    search_catalog (client workbook_search_proxy)
      ("sales" +:+ " AND type=workbook")
      (scope workbook_search_proxy) (page_size workbook_search_proxy) =
      Ok pages /\
    SearchDashboardResult 1 [DashboardResult sales_dashboard] =
      SearchDashboardResult total_results results /\
    ((results = [] /\
      (0 < 0 \/ Z.of_nat (length pages) <= 0))
     \/ (exists page,
           0 <= 0 /\
           pages !! Z.to_nat 0 = Some page /\
           Forall2
             (fun element r =>
                exists dashboard,
                  _process_dashboard_resource ends_with_dashboard_metadata
                    workbook_search_proxy element = Ok dashboard
                  /\ r = DashboardResult dashboard)
             page results)).
Proof.
  apply (dashboard_search_results ends_with_dashboard_metadata
           workbook_search_proxy "sales" 0 ""
           (SearchDashboardResult 1 [DashboardResult sales_dashboard])).
  reflexivity.
Defined.

(** ** Construction *)

(** X23. The proxy is constructed exactly when the client library builds
    its own client, from the service-account file when one is given and from
    the default credentials otherwise, even if a client is injected; the
    proxy then searches the one project given, with the injected client if
    there is one and the library's otherwise. *)
Theorem init_builds_library_client
  (from_service_account_file :
     string -> list (list string) -> result DataCatalogClient)
  (DataCatalogClient_new :
     option string -> list (list string) -> result DataCatalogClient)
  (project_id : string) (credentials_file : option string)
  (injected : option DataCatalogClient) (page_size : Z)
  (proxy : GCPDataCatalogProxy) :
  __init__ from_service_account_file DataCatalogClient_new project_id
    credentials_file injected page_size = Ok proxy <->
  exists _client,
    match credentials_file with
    | Some file =>
        if String.eqb file "" then
          DataCatalogClient_new credentials_file [[project_id]]
        else from_service_account_file file [[project_id]]
    | None => DataCatalogClient_new None [[project_id]]
    end = Ok _client /\
    proxy = {| scope := [project_id];
               client := match injected with
                         | Some client => client
                         | None => _client
                         end;
               page_size := page_size |}.
Proof.
  unfold __init__, credentials_truthy.
  destruct credentials_file as [file|]; [destruct (String.eqb file "") |];
    simpl.
  all: match goal with
       | |- context [?build ≫= _] =>
           destruct build as [_client|e];
           [rewrite bind_Ok | rewrite bind_Err]
       end.
  all: split;
    [ intros Hok; try done; injection Hok as <-; exists _client;
      by destruct injected
    | intros (built & Hbuilt & ->); try done; injection Hbuilt as ->;
      by destruct injected ].
Qed.

(** ** The singleton proxy client *)

(** X24. Once [get_proxy_client] has returned a client, the global holds
    it and every later call returns that same client, whatever the
    configuration has become: the configuration is read once. *)
Theorem get_proxy_client_singleton {Proxy : Type} (config : ConfigKeys)
  (import_string : config_value -> result (Kwargs.Kwargs -> result Proxy))
  (app_config : gmap string config_value) (_proxy_client : option Proxy)
  (proxy : Proxy) (after : option Proxy)
  (Hfirst :
     get_proxy_client config import_string app_config _proxy_client =
       (Ok proxy, after)) :
  after = Some proxy /\
  forall import_string' app_config',
    get_proxy_client config import_string' app_config' after =
      (Ok proxy, after).
Proof.
  assert (after = Some proxy) as ->.
  { unfold get_proxy_client in Hfirst.
    destruct _proxy_client as [existing|]; [by injection Hfirst as <- <- |].
    destruct (build_proxy_client _ _ _) as [built|e];
      [by injection Hfirst as <- <- | congruence]. }
  done.
Qed.

Lemma get_proxy_client_singleton_witness :
  Some example_kwargs = Some example_kwargs /\
  forall import_string' app_config',
    get_proxy_client example_keys import_string' app_config'
      (Some example_kwargs) = (Ok example_kwargs, Some example_kwargs).
Proof.
  apply (get_proxy_client_singleton example_keys import_recorder
           example_config None example_kwargs (Some example_kwargs)).
  reflexivity.
Defined.

Ltac read_key before Hkeys Hpresent Hmissing :=
  let k := fresh "k" in
  let v := fresh "v" in
  let Hv := fresh "Hv" in
  destruct before as [|k before]; simpl in Hkeys;
  [ injection Hkeys as <- _; rewrite Hmissing; reflexivity
  | injection Hkeys as <- Hkeys;
    apply Forall_cons in Hpresent as [[v Hv] Hpresent];
    rewrite Hv, bind_Ok ].

(** X25. When a key that [get_proxy_client] reads with [config[key]] is
    missing from the configuration, the first call raises [KeyError] on the
    first missing key, in the order client key, endpoint, user, password,
    project, credentials file, client class, and the global stays unset, so
    that the next call reads the configuration again. *)
Theorem get_proxy_client_missing_key {Proxy : Type} (config : ConfigKeys)
  (import_string : config_value -> result (Kwargs.Kwargs -> result Proxy))
  (app_config : gmap string config_value)
  (before after : list string) (key : string)
  (Hkeys : required_keys config = before ++ key :: after)
  (Hpresent : forall k, k ∈ before -> is_Some (app_config !! k))
  (Hmissing : app_config !! key = None) :
  get_proxy_client config import_string app_config None =
    (Err (KeyError key), None).
Proof.
  apply Forall_forall in Hpresent.
  unfold get_proxy_client, build_proxy_client, config_getitem, required_keys
    in *.
  do 7 read_key before Hkeys Hpresent Hmissing.
  by destruct before.
Qed.

Lemma get_proxy_client_missing_key_witness :
  get_proxy_client example_keys import_recorder
    (delete "PROXY_USER"%string example_config) None =
    (Err (KeyError "PROXY_USER"), None).
Proof.
  apply (get_proxy_client_missing_key example_keys import_recorder
           (delete "PROXY_USER"%string example_config)
           ["PROXY_CLIENT_KEY"; "PROXY_ENDPOINT"]%string
           ["PROXY_PASSWORD"; "PROXY_PROJECT_ID"; "PROXY_CREDENTIALS_FILE";
            "PROXY_CLIENT"]%string "PROXY_USER").
  - reflexivity.
  - intros k Hk.
    repeat (apply elem_of_cons in Hk as [-> | Hk]); [by eexists .. |].
    by apply elem_of_nil in Hk.
  - reflexivity.
Defined.

(** X26. With every required key configured and the configured class
    imported, the first call calls the class with the endpoint as host, the
    user, the password, the client key's value as client, the project and the
    credentials file, and with the configured page size or 10 when none is
    configured; the instance it returns becomes the global, and an exception
    it raises leaves the global unset. *)
Theorem get_proxy_client_arguments {Proxy : Type} (config : ConfigKeys)
  (import_string : config_value -> result (Kwargs.Kwargs -> result Proxy))
  (app_config : gmap string config_value)
  (obj host user password project_id credentials_file name : config_value)
  (class : Kwargs.Kwargs -> result Proxy)
  (Hobj : app_config !! PROXY_CLIENT_KEY config = Some obj)
  (Hhost : app_config !! PROXY_ENDPOINT config = Some host)
  (Huser : app_config !! PROXY_USER config = Some user)
  (Hpassword : app_config !! PROXY_PASSWORD config = Some password)
  (Hproject : app_config !! PROXY_PROJECT_ID config = Some project_id)
  (Hcredentials :
     app_config !! PROXY_CREDENTIALS_FILE config = Some credentials_file)
  (Hname : app_config !! PROXY_CLIENT config = Some name)
  (Hclass : import_string name = Ok class) :
  get_proxy_client config import_string app_config None =
    match
      class {| Kwargs.host := host;
               Kwargs.user := user;
               Kwargs.password := password;
               Kwargs.client := obj;
               Kwargs.page_size :=
                 match app_config !! SEARCH_PAGE_SIZE_KEY config with
                 | Some page_size => page_size
                 | None => ConfigInt 10
                 end;
               Kwargs.project_id := project_id;
               Kwargs.credentials_file := credentials_file |}
    with
    | Ok proxy => (Ok proxy, Some proxy)
    | Err e => (Err e, None)
    end.
Proof.
  unfold get_proxy_client, build_proxy_client, config_getitem.
  rewrite Hobj, Hhost, Huser, Hpassword, Hproject, Hcredentials, Hname.
  rewrite !bind_Ok, Hclass, bind_Ok.
  by destruct (app_config !! SEARCH_PAGE_SIZE_KEY config).
Qed.

Lemma get_proxy_client_arguments_witness :
  get_proxy_client example_keys import_recorder example_config None =
    (Ok example_kwargs, Some example_kwargs).
Proof.
  apply (get_proxy_client_arguments example_keys import_recorder example_config
           ConfigNone ConfigNone (ConfigStr "") (ConfigStr "") (ConfigStr "p1")
           ConfigNone
           (ConfigStr
              "search_service.proxy.gcp_data_catalog.GCPDataCatalogProxy")
           (fun kwargs => Ok kwargs)); reflexivity.
Defined.

Lemma query_loop_list_clean_witness :
  query_loop "orders"
    [("tag", VList ["pii"; "gdpr"]); ("type", VStr "table")]%string =
  "orders AND (tag:pii OR tag:gdpr) AND type=table"%string.
Proof.
  rewrite (query_loop_list_clean "orders" "tag" ["pii"; "gdpr"]%string
             [("type"%string, VStr "table")]);
    [reflexivity | discriminate | discriminate | reflexivity | reflexivity].
Defined.
